(** * Session, profile and bookmark state layer of the pharmacy portal client

    A shallow embedding of the zustand stores ([resourceBookmarkStore],
    [authStore], [profileStore]), the row mappers of [types/index.ts] and the
    training-progress service, with the properties of the state layer stated
    and proved over it.

    The stores are asynchronous TypeScript: every operation reads the store
    with [get()], awaits calls to the remote store client, and writes back
    with [set(...)].  The embedding is a small monad over the store state
    that records every remote request it issues and can end in a thrown
    exception; the remote client is an oracle that says, per request, whether
    the awaited promise fulfils (and with which [{data, error}] result) or
    rejects. *)

From Stdlib Require Import String Ascii List Bool.
From Stdlib Require QArith.
From stdpp Require Import gmap strings.

Import ListNotations.
Local Open Scope string_scope.

(** ** JavaScript values *)

Module Js.

Import QArith_base.

(** A JavaScript [number]: a finite value, an infinity or NaN.  Finite
    doubles are rationals; [Math.min] and [Math.max] only compare and
    select, so no rounding is involved. *)
Inductive number : Type :=
| NaN
| NegInf
| PosInf
| Fin (q : Q).

(** [a <= b] on numbers that are not NaN. *)
Definition num_leb (a b : number) : bool :=
  match a, b with
  | NaN, _ | _, NaN => false
  | NegInf, _ => true
  | _, PosInf => true
  | Fin x, Fin y => Qle_bool x y
  | _, _ => false
  end.

(** [Math.max(a, b)]: NaN if either argument is NaN. *)
Definition Math_max (a b : number) : number :=
  match a, b with
  | NaN, _ | _, NaN => NaN
  | _, _ => if num_leb a b then b else a
  end.

(** [Math.min(a, b)]: NaN if either argument is NaN. *)
Definition Math_min (a b : number) : number :=
  match a, b with
  | NaN, _ | _, NaN => NaN
  | _, _ => if num_leb a b then a else b
  end.

Definition of_Z (z : Z) : number := Fin (inject_Z z).

(** The values a loosely typed remote row ([any]) can hold in a column. *)
Inductive value : Type :=
| Undefined
| Null
| Bool (b : bool)
| Num (n : number)
| Str (s : string).

(** [v === undefined || v === null] *)
Definition nullish (v : value) : bool :=
  match v with
  | Undefined | Null => true
  | _ => false
  end.

(** [a ?? b] *)
Definition coalesce (a b : value) : value :=
  if nullish a then b else a.

(** Truthiness of a string: only the empty string is falsy. *)
Definition truthy_string (s : string) : bool :=
  match s with
  | EmptyString => false
  | String _ _ => true
  end.

(** Truthiness of a value ([!!v]). *)
Definition truthy (v : value) : bool :=
  match v with
  | Undefined | Null => false
  | Bool b => b
  | Num NaN => false
  | Num (Fin q) => negb (Qeq_bool q 0)
  | Num _ => true
  | Str s => truthy_string s
  end.

(** Truthiness of an optional string ([string | undefined]). *)
Definition truthy_opt (o : option string) : bool :=
  match o with
  | Some s => truthy_string s
  | None => false
  end.

(** [s.replace(/^\/+/, '')]: drop every leading slash. *)
Fixpoint strip_leading_slashes (s : string) : string :=
  match s with
  | String "/"%char rest => strip_leading_slashes rest
  | _ => s
  end.

(** What a JavaScript function can throw here. *)
Inductive exn : Type :=
| Error (message : string)      (* [new Error(message)] *)
| TypeError                     (* property read on [null] / [undefined] *)
| RemoteError (e : string).     (* an [error] object of the remote client *)

End Js.

Notation "a ?? b" := (Js.coalesce a b) (at level 45, left associativity).

(** ** Entities and row mappers ([types/index.ts]) *)

(** A row of the [accounts] table as the remote client hands it over
    ([row: any]): every column may be missing or null. *)
Module AccountRow.
Record t : Type := mk {
  id : Js.value;
  email : Js.value;
  pharmacy_name : Js.value;
  pharmacy_phone : Js.value;
  subscription_status : Js.value;
  created_at : Js.value;
  updated_at : Js.value;
  address1 : Js.value;
  city : Js.value;
  state : Js.value;
  zipcode : Js.value
}.
End AccountRow.

(** [interface Account].  The mapper casts without checking, so at run time
    the fields hold whatever the row held.  In a [Partial<Account>] an
    absent field reads as [Js.Undefined]. *)
Module Account.
Record t : Type := mk {
  id : Js.value;
  email : Js.value;
  pharmacyName : Js.value;
  pharmacyPhone : Js.value;
  subscriptionStatus : Js.value;
  createdAt : Js.value;
  updatedAt : Js.value;
  address1 : Js.value;
  city : Js.value;
  state : Js.value;
  zipcode : Js.value
}.
End Account.

(** A row of the [member_profiles] table. *)
Module ProfileRow.
Record t : Type := mk {
  id : Js.value;
  account_id : Js.value;
  full_name : Js.value;
  role : Js.value;
  email : Js.value;
  phone : Js.value;
  is_active : Js.value;
  created_at : Js.value;
  updated_at : Js.value
}.
End ProfileRow.

(** [interface MemberProfile]; without [id], [createdAt] and [updatedAt] it
    is also the argument of [addProfile]. *)
Module MemberProfile.
Record t : Type := mk {
  id : Js.value;
  accountId : Js.value;
  fullName : Js.value;
  role : Js.value;
  email : Js.value;
  phone : Js.value;
  isActive : Js.value;
  createdAt : Js.value;
  updatedAt : Js.value
}.
End MemberProfile.

Definition mapRowToAccount (row : AccountRow.t) : Account.t :=
  {| Account.id := AccountRow.id row;
     Account.email := AccountRow.email row;
     Account.pharmacyName := AccountRow.pharmacy_name row;
     Account.pharmacyPhone := AccountRow.pharmacy_phone row ?? Js.Null;
     Account.subscriptionStatus :=
       AccountRow.subscription_status row ?? Js.Str "inactive";
     Account.createdAt := AccountRow.created_at row;
     Account.updatedAt := AccountRow.updated_at row ?? Js.Null;
     Account.address1 := AccountRow.address1 row ?? Js.Null;
     Account.city := AccountRow.city row ?? Js.Null;
     Account.state := AccountRow.state row ?? Js.Null;
     Account.zipcode := AccountRow.zipcode row ?? Js.Null |}.

Definition mapRowToProfile (row : ProfileRow.t) : MemberProfile.t :=
  {| MemberProfile.id := ProfileRow.id row;
     MemberProfile.accountId := ProfileRow.account_id row;
     MemberProfile.fullName := ProfileRow.full_name row;
     MemberProfile.role := ProfileRow.role row;
     MemberProfile.email := ProfileRow.email row ?? Js.Null;
     MemberProfile.phone := ProfileRow.phone row ?? Js.Null;
     MemberProfile.isActive := Js.Bool (Js.truthy (ProfileRow.is_active row));
     MemberProfile.createdAt := ProfileRow.created_at row;
     MemberProfile.updatedAt := ProfileRow.updated_at row ?? Js.Null |}.

(** ** The remote store client *)

(** The object handed to [.update(...)] on [accounts].  A key whose value is
    [Js.Undefined] is not serialised, so it is not part of the write. *)
Module AccountPayload.
Record t : Type := mk {
  pharmacy_name : Js.value;
  pharmacy_phone : Js.value;
  subscription_status : Js.value;
  address1 : Js.value;
  city : Js.value;
  state : Js.value;
  zipcode : Js.value;
  updated_at : Js.value
}.
End AccountPayload.

(** The object handed to [.insert(...)] on [member_profiles]. *)
Module ProfilePayload.
Record t : Type := mk {
  account_id : Js.value;
  full_name : Js.value;
  role : Js.value;
  email : Js.value;
  phone : Js.value;
  is_active : Js.value
}.
End ProfilePayload.

(** The object handed to [.update(...)] on [member_training_progress];
    [completed_at] is a key only when the module is marked complete. *)
Module TrainingPayload.
Record t : Type := mk {
  completion_percentage : Js.number;
  is_completed : bool;
  completed_at : option string
}.
End TrainingPayload.

(** The requests the state layer sends, with the filters it puts on them. *)
Inductive Request : Type :=
| CatalogSelectId (file_path bucket_name : string)
| BookmarksDelete (profile_id resource_id : string)
| BookmarksInsert (profile_id resource_type resource_id : string)
| BookmarksSelectJoined (profile_id resource_type : string)
| AuthSignOut
| AuthGetSession
| AccountsSelect (id : Js.value)
| AccountsUpdate (id : Js.value) (payload : AccountPayload.t)
| MemberProfilesInsert (payload : ProfilePayload.t)
| TrainingProgressUpdate (member_profile_id training_module_id : string)
    (payload : TrainingPayload.t).

(** What [await] on a remote call gives: the promise fulfils with a value or
    rejects with an exception. *)
Inductive Outcome (A : Type) : Type :=
| Fulfilled (a : A)
| Rejected (e : Js.exn).
Arguments Fulfilled {A} a.
Arguments Rejected {A} e.

(** The [{ data, error }] result of the query builder. *)
Record Response (D : Type) : Type := mkResponse {
  data : D;
  error : option string
}.
Arguments mkResponse {D} data error.
Arguments data {D} r.
Arguments error {D} r.

(** [storage_files_catalog.select('id')] *)
Record CatalogIdRow : Type := { catalog_id : string }.

(** The embedded [storage_files_catalog (id, file_path)] of a bookmark row;
    the join of a bookmark whose resource left the catalog is null. *)
Record CatalogJoin : Type := {
  join_id : string;
  file_path : option string
}.

Record BookmarkRow : Type := {
  resource_id : string;
  storage_files_catalog : option CatalogJoin
}.

(** [supabase.auth]: the user, the session, and the [data] of
    [getSession()].  Only [user.id] and [session.user] are read. *)
Module Auth.
Record User : Type := { id : Js.value }.
Record Session : Type := { user : option User }.
Record SessionData : Type := { session : option Session }.
End Auth.

(** The remote side of one operation: per request, how its promise settles.
    [now] is what [new Date().toISOString()] reads. *)
Record Remote : Type := {
  catalog_select_id :
    string -> string -> Outcome (Response (option CatalogIdRow));
  bookmarks_delete : string -> string -> Outcome (Response unit);
  bookmarks_insert : string -> string -> string -> Outcome (Response unit);
  bookmarks_select_joined :
    string -> string -> Outcome (Response (option (list BookmarkRow)));
  auth_sign_out : Outcome (Response unit);
  auth_get_session : Outcome (Response (option Auth.SessionData));
  accounts_select : Js.value -> Outcome (Response (option AccountRow.t));
  accounts_update :
    Js.value -> AccountPayload.t -> Outcome (Response (option AccountRow.t));
  member_profiles_insert :
    ProfilePayload.t -> Outcome (Response (option ProfileRow.t));
  training_progress_update :
    string -> string -> TrainingPayload.t -> Outcome (Response unit);
  now : string
}.

(** ** Asynchronous store operations *)

Module Async.

(** How a run of an operation ends: its result or the exception it threw,
    the store afterwards, and the remote requests it issued, in order. *)
Record Run (S A : Type) : Type := mkRun {
  result : Js.exn + A;
  final : S;
  calls : list Request
}.
Arguments mkRun {S A} result final calls.
Arguments result {S A} r.
Arguments final {S A} r.
Arguments calls {S A} r.

(** An operation of a store with state [S]. *)
Definition M (S A : Type) : Type := Remote -> S -> Run S A.

Definition ret {S A} (a : A) : M S A :=
  fun _ st => mkRun (inr a) st [].

Definition throw {S A} (e : Js.exn) : M S A :=
  fun _ st => mkRun (inl e) st [].

Definition bind {S A B} (m : M S A) (k : A -> M S B) : M S B :=
  fun env st =>
    let r := m env st in
    match result r with
    | inl e => mkRun (inl e) (final r) (calls r)
    | inr a =>
        let r' := k a env (final r) in
        mkRun (result r') (final r') (calls r ++ calls r')
    end.

(** [get()] *)
Definition get {S} : M S S :=
  fun _ st => mkRun (inr st) st [].

(** [set(s => f(s))]; [set({ k: v })] is the [f] that overwrites [k]. *)
Definition set {S} (f : S -> S) : M S unit :=
  fun _ st => mkRun (inr tt) (f st) [].

(** [await] on a remote call: the request goes out, and the operation
    resumes with the fulfilled value or throws the rejection. *)
Definition await {S A} (rq : Request) (settle : Remote -> Outcome A) : M S A :=
  fun env st =>
    match settle env with
    | Fulfilled a => mkRun (inr a) st [rq]
    | Rejected e => mkRun (inl e) st [rq]
    end.

(** [new Date().toISOString()] *)
Definition Date_now {S} : M S string :=
  fun env st => mkRun (inr (now env)) st [].

(** [console.error(...)]: nothing the store or the remote side observes. *)
Definition console_error {S} : M S unit := ret tt.

(** [try { m } catch (e) { handler e }] *)
Definition try_catch {S A} (m : M S A) (handler : Js.exn -> M S A) : M S A :=
  fun env st =>
    let r := m env st in
    match result r with
    | inl e =>
        let r' := handler e env (final r) in
        mkRun (result r') (final r') (calls r ++ calls r')
    | inr a => r
    end.

(** [try { m } finally { fin }]: [fin] runs either way; the outcome is
    that of [m] unless [fin] itself throws. *)
Definition try_finally {S A} (m : M S A) (fin : M S unit) : M S A :=
  fun env st =>
    let r := m env st in
    let r' := fin env (final r) in
    match result r' with
    | inl e => mkRun (inl e) (final r') (calls r ++ calls r')
    | inr _ => mkRun (result r) (final r') (calls r ++ calls r')
    end.

(** [if (error) throw error] *)
Definition throw_if_error {S} (error : option string) : M S unit :=
  match error with
  | Some e => throw (Js.RemoteError e)
  | None => ret tt
  end.

(** Reading a property of [data] when [data] may be null. *)
Definition deref {S A} (data : option A) : M S A :=
  match data with
  | Some a => ret a
  | None => throw Js.TypeError
  end.

End Async.

Declare Scope async_scope.
Delimit Scope async_scope with async.
Notation "x <- m ;; k" := (Async.bind m (fun x => k))
  (at level 100, m at next level, right associativity) : async_scope.
Notation "m ;; k" := (Async.bind m (fun _ => k))
  (at level 100, right associativity) : async_scope.

(** ** [stores/resourceBookmarkStore.ts] *)

(** The two fields of [StorageFileItem] the store reads; its display fields
    ([title], [filename], [url], [mimeType], [size]) play no role here. *)
Record StorageFileItem : Type := {
  path : string;
  catalogId : option string
}.

Module ResourceBookmarkStore.

Import Async.
Local Open Scope async_scope.

(** [interface ResourceBookmarkState], the data part. *)
Record State : Type := mkState {
  bookmarkedResources : gmap string string;   (* path -> catalogId *)
  loading : bool
}.

Definition init : State :=
  {| bookmarkedResources := ∅; loading := false |}.

Definition set_bookmarkedResources (m : gmap string string) (st : State) : State :=
  {| bookmarkedResources := m; loading := loading st |}.

Definition set_loading (b : bool) (st : State) : State :=
  {| bookmarkedResources := bookmarkedResources st; loading := b |}.

(** [Map.prototype.has] *)
Definition has (m : gmap string string) (k : string) : bool :=
  match m !! k with
  | Some _ => true
  | None => false
  end.

Definition isBookmarked (resourcePath : string) (st : State) : bool :=
  has (bookmarkedResources st) resourcePath.

Definition toggleBookmark (profileId : string) (resource : StorageFileItem)
  : M State unit :=
  st <- get ;;
  let bookmarkedResources := bookmarkedResources st in
  let wasBookmarked := has bookmarkedResources (path resource) in
  catalogId <-
    (if negb (Js.truthy_opt (catalogId resource)) && negb wasBookmarked then
       r <- await (CatalogSelectId (path resource) "clinicalrxqfiles")
              (fun env => catalog_select_id env (path resource) "clinicalrxqfiles") ;;
       match data r with
       | Some row =>
           if Js.truthy_string (catalog_id row)
           then ret (Some (catalog_id row))
           else throw (Js.Error "Resource not found in catalog")
       | None => throw (Js.Error "Resource not found in catalog")
       end
     else ret (catalogId resource)) ;;
  try_catch
    (if wasBookmarked then
       match bookmarkedResources !! path resource with
       | Some existingCatalogId =>
           if Js.truthy_string existingCatalogId then
             await (BookmarksDelete profileId existingCatalogId)
               (fun env => bookmarks_delete env profileId existingCatalogId) ;;
             set (set_bookmarkedResources
                    (delete (path resource) bookmarkedResources))
           else console_error ;; ret tt
       | None => console_error ;; ret tt
       end
     else
       match catalogId with
       | Some id =>
           if Js.truthy_string id then
             await (BookmarksInsert profileId "file" id)
               (fun env => bookmarks_insert env profileId "file" id) ;;
             set (set_bookmarkedResources
                    (<[path resource := id]> bookmarkedResources))
           else throw (Js.Error "Catalog ID required to create bookmark")
       | None => throw (Js.Error "Catalog ID required to create bookmark")
       end)
    (fun error => console_error ;; throw error).

(** The body of the [for ... of] loop of [loadBookmarks]. *)
Definition add_bookmark_row (resources : gmap string string) (bookmark : BookmarkRow)
  : gmap string string :=
  match storage_files_catalog bookmark with
  | Some catalog =>
      match file_path catalog with
      | Some file_path =>
          if Js.truthy_string file_path
          then <[Js.strip_leading_slashes file_path := resource_id bookmark]> resources
          else resources
      | None => resources
      end
  | None => resources
  end.

(** [for (const bookmark of rows) { ... }] starting from [new Map()]. *)
Definition build_resources (rows : list BookmarkRow) : gmap string string :=
  fold_left add_bookmark_row rows ∅.

Definition loadBookmarks (profileId : string) : M State unit :=
  try_finally
    (try_catch
       (set (set_loading true) ;;
        r <- await (BookmarksSelectJoined profileId "file")
               (fun env => bookmarks_select_joined env profileId "file") ;;
        throw_if_error (error r) ;;
        let resources := build_resources (default [] (data r)) in
        set (set_bookmarkedResources resources))
       (fun error => console_error))
    (set (set_loading false)).

Definition clearBookmarks : M State unit :=
  set (set_bookmarkedResources ∅).

(** A session of toggles of one resource, one after the other, each against
    its own state of the remote side: the store at the end and the number
    of calls that completed without throwing. *)
Fixpoint toggle_session (profileId : string) (resource : StorageFileItem)
    (envs : list Remote) (st : State) : State * nat :=
  match envs with
  | [] => (st, 0)
  | env :: rest =>
      let r := toggleBookmark profileId resource env st in
      let '(st', n) := toggle_session profileId resource rest (final r) in
      (st', match result r with inr _ => S n | inl _ => n end)
  end.

(** The join of a bookmark row is intact: the catalog entry is there and
    has a non-empty path, [fp]. *)
Definition intact (row : BookmarkRow) (fp : string) : Prop :=
  exists catalog,
    storage_files_catalog row = Some catalog
    /\ file_path catalog = Some fp
    /\ Js.truthy_string fp = true.

(** Every catalog identifier the cache holds for path [p] is a non-empty
    string (what [toggleBookmark] relies on when it removes a bookmark). *)
Definition cache_ok (p : string) (st : State) : Prop :=
  forall id, bookmarkedResources st !! p = Some id -> Js.truthy_string id = true.

End ResourceBookmarkStore.

(** ** [stores/authStore.ts] *)

Module AuthStore.

Import Async.
Local Open Scope async_scope.

(** [type AuthState], the data part. *)
Record State : Type := mkState {
  isInitialized : bool;
  session : option Auth.Session;
  user : option Auth.User;
  account : option Account.t
}.

Definition init : State :=
  {| isInitialized := false; session := None; user := None; account := None |}.

Definition logout : M State unit :=
  await AuthSignOut auth_sign_out ;;
  set (fun st =>
         {| isInitialized := isInitialized st;
            session := None; user := None; account := None |}).

Definition checkSession : M State unit :=
  try_catch
    ((* 1) read auth session *)
     r <- await AuthGetSession auth_get_session ;;
     sess <- deref (data r) ;;
     set (fun st =>
            {| isInitialized := isInitialized st;
               session := Auth.session sess;
               user := Auth.session sess ≫= Auth.user;
               account := account st |}) ;;
     (* 2) fetch account row *)
     match Auth.session sess ≫= Auth.user with
     | None =>
         set (fun st =>
                {| isInitialized := true;
                   session := session st; user := user st;
                   account := None |})
     | Some user' =>
         r <- await (AccountsSelect (Auth.id user'))
                (fun env => accounts_select env (Auth.id user')) ;;
         throw_if_error (error r) ;;
         row <- deref (data r) ;;
         let account' := mapRowToAccount row in
         set (fun st =>
                {| isInitialized := true;
                   session := session st; user := user st;
                   account := Some account' |})
     end)
    (fun e =>
       console_error ;;
       set (fun st =>
              {| isInitialized := true;
                 session := session st; user := user st;
                 account := account st |})).

(** The object [updateAccount] builds from the patch. *)
Definition update_payload (patch : Account.t) (now : string) : AccountPayload.t :=
  {| AccountPayload.pharmacy_name := Account.pharmacyName patch;
     AccountPayload.pharmacy_phone := Account.pharmacyPhone patch ?? Js.Null;
     AccountPayload.subscription_status :=
       Account.subscriptionStatus patch ?? Js.Undefined;
     AccountPayload.address1 := Account.address1 patch ?? Js.Null;
     AccountPayload.city := Account.city patch ?? Js.Null;
     AccountPayload.state := Account.state patch ?? Js.Null;
     AccountPayload.zipcode := Account.zipcode patch ?? Js.Null;
     AccountPayload.updated_at := Js.Str now |}.

Definition updateAccount (patch : Account.t) : M State (option Account.t) :=
  st <- get ;;
  match user st with
  | None => ret None
  | Some user' =>
      now <- Date_now ;;
      let payload := update_payload patch now in
      r <- await (AccountsUpdate (Auth.id user') payload)
             (fun env => accounts_update env (Auth.id user') payload) ;;
      throw_if_error (error r) ;;
      row <- deref (data r) ;;
      let account' := mapRowToAccount row in
      set (fun st =>
             {| isInitialized := isInitialized st;
                session := session st; user := user st;
                account := Some account' |}) ;;
      ret (Some account')
  end.

End AuthStore.

(** What an [.update(payload)] does to the matched row of [accounts]: the
    payload travels as JSON, which has no [undefined], so exactly the keys
    with another value are overwritten; [id], [email] and [created_at] are
    not keys of the payload. *)
Module AccountsTable.

Definition written (old new : Js.value) : Js.value :=
  match new with
  | Js.Undefined => old
  | _ => new
  end.

Definition update (payload : AccountPayload.t) (row : AccountRow.t) : AccountRow.t :=
  {| AccountRow.id := AccountRow.id row;
     AccountRow.email := AccountRow.email row;
     AccountRow.pharmacy_name :=
       written (AccountRow.pharmacy_name row) (AccountPayload.pharmacy_name payload);
     AccountRow.pharmacy_phone :=
       written (AccountRow.pharmacy_phone row) (AccountPayload.pharmacy_phone payload);
     AccountRow.subscription_status :=
       written (AccountRow.subscription_status row)
         (AccountPayload.subscription_status payload);
     AccountRow.created_at := AccountRow.created_at row;
     AccountRow.updated_at :=
       written (AccountRow.updated_at row) (AccountPayload.updated_at payload);
     AccountRow.address1 :=
       written (AccountRow.address1 row) (AccountPayload.address1 payload);
     AccountRow.city := written (AccountRow.city row) (AccountPayload.city payload);
     AccountRow.state := written (AccountRow.state row) (AccountPayload.state payload);
     AccountRow.zipcode :=
       written (AccountRow.zipcode row) (AccountPayload.zipcode payload) |}.

End AccountsTable.

(** ** [stores/profileStore.ts] *)

Module ProfileStore.

Import Async.
Local Open Scope async_scope.

(** [type ProfileState], the data part. *)
Record State : Type := mkState {
  currentProfile : option MemberProfile.t;
  profiles : list MemberProfile.t
}.

(** The object [addProfile] inserts. *)
Definition insert_payload (p : MemberProfile.t) : ProfilePayload.t :=
  {| ProfilePayload.account_id := MemberProfile.accountId p;
     ProfilePayload.full_name := MemberProfile.fullName p;
     ProfilePayload.role := MemberProfile.role p;
     ProfilePayload.email := MemberProfile.email p ?? Js.Null;
     ProfilePayload.phone := MemberProfile.phone p ?? Js.Null;
     ProfilePayload.is_active := MemberProfile.isActive p ?? Js.Bool true |}.

Definition addProfile (p : MemberProfile.t) : M State MemberProfile.t :=
  let payload := insert_payload p in
  r <- await (MemberProfilesInsert payload)
         (fun env => member_profiles_insert env payload) ;;
  throw_if_error (error r) ;;
  row <- deref (data r) ;;
  let created := mapRowToProfile row in
  st <- get ;;
  set (fun st' =>
         {| currentProfile := currentProfile st';
            profiles := profiles st ++ [created] |}) ;;
  ret created.

(** The object literal [{}]: every field reads as [undefined]. *)
Definition empty_input : MemberProfile.t :=
  MemberProfile.mk Js.Undefined Js.Undefined Js.Undefined Js.Undefined
    Js.Undefined Js.Undefined Js.Undefined Js.Undefined Js.Undefined.

End ProfileStore.

(** ** Training progress (profile dashboard service) *)

Module TrainingProgress.

Import Async.
Local Open Scope async_scope.

(** [Math.min(100, Math.max(0, completionPercentage))] *)
Definition clamp (completionPercentage : Js.number) : Js.number :=
  Js.Math_min (Js.of_Z 100) (Js.Math_max (Js.of_Z 0) completionPercentage).

(** The service keeps no state of its own. *)
Definition updateTrainingProgress (profileId trainingModuleId : string)
    (completionPercentage : Js.number) (isCompleted : bool) : M unit unit :=
  let updateData :=
    {| TrainingPayload.completion_percentage := clamp completionPercentage;
       TrainingPayload.is_completed := isCompleted;
       TrainingPayload.completed_at := None |} in
  updateData <-
    (if isCompleted then
       now <- Date_now ;;
       ret {| TrainingPayload.completion_percentage :=
                TrainingPayload.completion_percentage updateData;
              TrainingPayload.is_completed := TrainingPayload.is_completed updateData;
              TrainingPayload.completed_at := Some now |}
     else ret updateData) ;;
  r <- await (TrainingProgressUpdate profileId trainingModuleId updateData)
         (fun env => training_progress_update env profileId trainingModuleId updateData) ;;
  throw_if_error (error r).

Definition completeTrainingModule (profileId trainingModuleId : string) : M unit unit :=
  updateTrainingProgress profileId trainingModuleId (Js.of_Z 100) true.

End TrainingProgress.

(** ** Concrete remote sides and inputs *)

Module Scenario.

(** Every request succeeds; queries find nothing. *)
Definition remote_ok : Remote :=
  {| catalog_select_id := fun _ _ => Fulfilled (mkResponse None None);
     bookmarks_delete := fun _ _ => Fulfilled (mkResponse tt None);
     bookmarks_insert := fun _ _ _ => Fulfilled (mkResponse tt None);
     bookmarks_select_joined := fun _ _ => Fulfilled (mkResponse (Some []) None);
     auth_sign_out := Fulfilled (mkResponse tt None);
     auth_get_session := Fulfilled (mkResponse (Some {| Auth.session := None |}) None);
     accounts_select := fun _ => Fulfilled (mkResponse None None);
     accounts_update := fun _ _ => Fulfilled (mkResponse None None);
     member_profiles_insert := fun _ => Fulfilled (mkResponse None None);
     training_progress_update := fun _ _ _ => Fulfilled (mkResponse tt None);
     now := "2025-01-01T00:00:00.000Z" |}.

(** As [remote_ok], but the insert into [bookmarks] settles as given. *)
Definition with_bookmarks_insert (o : Outcome (Response unit)) (env : Remote) : Remote :=
  {| catalog_select_id := catalog_select_id env;
     bookmarks_delete := bookmarks_delete env;
     bookmarks_insert := fun _ _ _ => o;
     bookmarks_select_joined := bookmarks_select_joined env;
     auth_sign_out := auth_sign_out env;
     auth_get_session := auth_get_session env;
     accounts_select := accounts_select env;
     accounts_update := accounts_update env;
     member_profiles_insert := member_profiles_insert env;
     training_progress_update := training_progress_update env;
     now := now env |}.

(** ... the delete from [bookmarks] settles as given. *)
Definition with_bookmarks_delete (o : Outcome (Response unit)) (env : Remote) : Remote :=
  {| catalog_select_id := catalog_select_id env;
     bookmarks_delete := fun _ _ => o;
     bookmarks_insert := bookmarks_insert env;
     bookmarks_select_joined := bookmarks_select_joined env;
     auth_sign_out := auth_sign_out env;
     auth_get_session := auth_get_session env;
     accounts_select := accounts_select env;
     accounts_update := accounts_update env;
     member_profiles_insert := member_profiles_insert env;
     training_progress_update := training_progress_update env;
     now := now env |}.

(** ... the joined select on [bookmarks] settles as given. *)
Definition with_bookmarks_select
    (o : Outcome (Response (option (list BookmarkRow)))) (env : Remote) : Remote :=
  {| catalog_select_id := catalog_select_id env;
     bookmarks_delete := bookmarks_delete env;
     bookmarks_insert := bookmarks_insert env;
     bookmarks_select_joined := fun _ _ => o;
     auth_sign_out := auth_sign_out env;
     auth_get_session := auth_get_session env;
     accounts_select := accounts_select env;
     accounts_update := accounts_update env;
     member_profiles_insert := member_profiles_insert env;
     training_progress_update := training_progress_update env;
     now := now env |}.

(** ... the sign-out settles as given. *)
Definition with_sign_out (o : Outcome (Response unit)) (env : Remote) : Remote :=
  {| catalog_select_id := catalog_select_id env;
     bookmarks_delete := bookmarks_delete env;
     bookmarks_insert := bookmarks_insert env;
     bookmarks_select_joined := bookmarks_select_joined env;
     auth_sign_out := o;
     auth_get_session := auth_get_session env;
     accounts_select := accounts_select env;
     accounts_update := accounts_update env;
     member_profiles_insert := member_profiles_insert env;
     training_progress_update := training_progress_update env;
     now := now env |}.

(** ... the insert into [member_profiles] settles as given. *)
Definition with_profiles_insert
    (o : Outcome (Response (option ProfileRow.t))) (env : Remote) : Remote :=
  {| catalog_select_id := catalog_select_id env;
     bookmarks_delete := bookmarks_delete env;
     bookmarks_insert := bookmarks_insert env;
     bookmarks_select_joined := bookmarks_select_joined env;
     auth_sign_out := auth_sign_out env;
     auth_get_session := auth_get_session env;
     accounts_select := accounts_select env;
     accounts_update := accounts_update env;
     member_profiles_insert := fun _ => o;
     training_progress_update := training_progress_update env;
     now := now env |}.

(** The form of the spec's scenario, with and without its catalog id. *)
Definition form1 : StorageFileItem :=
  {| path := "mtm/form1.pdf"; catalogId := Some "C1" |}.

Definition form1_unresolved : StorageFileItem :=
  {| path := "mtm/form1.pdf"; catalogId := None |}.

(** A bookmark row whose catalog path is stored with a leading slash. *)
Definition slashed_row : BookmarkRow :=
  {| resource_id := "C1";
     storage_files_catalog :=
       Some {| join_id := "C1"; file_path := Some "/mtm/form1.pdf" |} |}.

(** A bookmark row whose resource has left the catalog. *)
Definition orphan_row : BookmarkRow :=
  {| resource_id := "C2"; storage_files_catalog := None |}.

Definition plain_row : BookmarkRow :=
  {| resource_id := "C3";
     storage_files_catalog :=
       Some {| join_id := "C3"; file_path := Some "mtm/form3.pdf" |} |}.

(** A signed-in pharmacy. *)
Definition owner : Auth.User := {| Auth.id := Js.Str "u1" |}.

Definition account_row : AccountRow.t :=
  {| AccountRow.id := Js.Str "u1";
     AccountRow.email := Js.Str "rx@example.com";
     AccountRow.pharmacy_name := Js.Str "Main Street Pharmacy";
     AccountRow.pharmacy_phone := Js.Str "555-0100";
     AccountRow.subscription_status := Js.Str "active";
     AccountRow.created_at := Js.Str "2024-01-01T00:00:00.000Z";
     AccountRow.updated_at := Js.Null;
     AccountRow.address1 := Js.Str "1 Main St";
     AccountRow.city := Js.Str "Springfield";
     AccountRow.state := Js.Str "AR";
     AccountRow.zipcode := Js.Str "72201" |}.

Definition signed_in : AuthStore.State :=
  {| AuthStore.isInitialized := true;
     AuthStore.session := Some {| Auth.user := Some owner |};
     AuthStore.user := Some owner;
     AuthStore.account := Some (mapRowToAccount account_row) |}.

(** A patch that names the pharmacy name and nothing else. *)
Definition rename_patch : Account.t :=
  {| Account.id := Js.Undefined;
     Account.email := Js.Undefined;
     Account.pharmacyName := Js.Str "Elm Street Pharmacy";
     Account.pharmacyPhone := Js.Undefined;
     Account.subscriptionStatus := Js.Undefined;
     Account.createdAt := Js.Undefined;
     Account.updatedAt := Js.Undefined;
     Account.address1 := Js.Undefined;
     Account.city := Js.Undefined;
     Account.state := Js.Undefined;
     Account.zipcode := Js.Undefined |}.

Definition created_row : ProfileRow.t :=
  {| ProfileRow.id := Js.Str "p1";
     ProfileRow.account_id := Js.Null;
     ProfileRow.full_name := Js.Null;
     ProfileRow.role := Js.Null;
     ProfileRow.email := Js.Null;
     ProfileRow.phone := Js.Null;
     ProfileRow.is_active := Js.Bool true;
     ProfileRow.created_at := Js.Str "2025-01-01T00:00:00.000Z";
     ProfileRow.updated_at := Js.Null |}.

Definition no_profiles : ProfileStore.State :=
  {| ProfileStore.currentProfile := None; ProfileStore.profiles := [] |}.

End Scenario.

(** ** The rest of the state layer

    The operations below reach endpoints the stores above do not use, and
    the browser's session storage.  They run in the same kind of monad over
    a wider environment; an operation of a store above runs inside it
    unchanged ([Service.lift]). *)

(** [a || b] on values. *)
Definition js_or (a b : Js.value) : Js.value :=
  if Js.truthy a then a else b.

(** The [data] of [signInWithPassword]. *)
Record SignInData : Type := {
  sign_in_session : option Auth.Session;
  sign_in_user : option Auth.User
}.

(** A row of [member_training_progress], with its embedded
    [training_modules (name)] when the select joins it. *)
Module TrainingRow.
Record t : Type := mk {
  id : Js.value;
  training_module_id : Js.value;
  started_at : Js.value;
  completed_at : Js.value;
  completion_percentage : Js.value;
  is_completed : Js.value;
  training_modules_name : option Js.value
}.
End TrainingRow.

Module Service.

(** The requests of the whole state layer. *)
Inductive Call : Type :=
| Store (rq : Request)
| AuthSignInWithPassword (email password : string)
| MemberProfilesSelect (account_id : string)
| MemberProfilesSelectOne (id : Js.value)
| CatalogSelectIdByPath (file_path : string)
| BookmarksSelectId (profile_id resource_id : string)
| TrainingProgressSelectOne (member_profile_id training_module_id : string)
| TrainingProgressSelectJoined (member_profile_id : string).

(** The surroundings of one operation: the remote side of the stores above,
    how the promises of the further requests settle, the JSON codec on
    profiles ([JSON_parse] gives [None] where [JSON.parse] throws, and
    [Some None] for the text [null]), and whether the session storage
    refuses access or has no room left. *)
Record Env : Type := {
  remote : Remote;
  auth_sign_in_with_password :
    string -> string -> Outcome (Response (option SignInData));
  member_profiles_select :
    string -> Outcome (Response (option (list ProfileRow.t)));
  member_profiles_select_one :
    Js.value -> Outcome (Response (option ProfileRow.t));
  catalog_select_id_by_path : string -> Outcome (Response (option CatalogIdRow));
  bookmarks_select_id :
    string -> string -> Outcome (Response (option (list Js.value)));
  training_progress_select_one :
    string -> string -> Outcome (Response (option TrainingRow.t));
  training_progress_select_joined :
    string -> Outcome (Response (option (list TrainingRow.t)));
  JSON_stringify : MemberProfile.t -> string;
  JSON_parse : string -> option (option MemberProfile.t);
  storage_denied : bool;
  quota_exceeded : bool
}.

Record Run (S A : Type) : Type := mkRun {
  result : Js.exn + A;
  final : S;
  calls : list Call
}.
Arguments mkRun {S A} result final calls.
Arguments result {S A} r.
Arguments final {S A} r.
Arguments calls {S A} r.

Definition M (S A : Type) : Type := Env -> S -> Run S A.

Definition ret {S A} (a : A) : M S A :=
  fun _ st => mkRun (inr a) st [].

Definition throw {S A} (e : Js.exn) : M S A :=
  fun _ st => mkRun (inl e) st [].

Definition bind {S A B} (m : M S A) (k : A -> M S B) : M S B :=
  fun env st =>
    let r := m env st in
    match result r with
    | inl e => mkRun (inl e) (final r) (calls r)
    | inr a =>
        let r' := k a env (final r) in
        mkRun (result r') (final r') (calls r ++ calls r')
    end.

Definition get {S} : M S S :=
  fun _ st => mkRun (inr st) st [].

Definition set {S} (f : S -> S) : M S unit :=
  fun _ st => mkRun (inr tt) (f st) [].

(** The environment, for what is read off it without a request. *)
Definition ask {S} : M S Env :=
  fun env st => mkRun (inr env) st [].

Definition await {S A} (c : Call) (settle : Env -> Outcome A) : M S A :=
  fun env st =>
    match settle env with
    | Fulfilled a => mkRun (inr a) st [c]
    | Rejected e => mkRun (inl e) st [c]
    end.

(** An operation of a store above, run as it is. *)
Definition lift {S A} (m : Async.M S A) : M S A :=
  fun env st =>
    let r := m (remote env) st in
    mkRun (Async.result r) (Async.final r) (map Store (Async.calls r)).

Definition console_error {S} : M S unit := ret tt.

Definition try_catch {S A} (m : M S A) (handler : Js.exn -> M S A) : M S A :=
  fun env st =>
    let r := m env st in
    match result r with
    | inl e =>
        let r' := handler e env (final r) in
        mkRun (result r') (final r') (calls r ++ calls r')
    | inr a => r
    end.

Definition throw_if_error {S} (error : option string) : M S unit :=
  match error with
  | Some e => throw (Js.RemoteError e)
  | None => ret tt
  end.

Definition deref {S A} (data : option A) : M S A :=
  match data with
  | Some a => ret a
  | None => throw Js.TypeError
  end.

End Service.

Declare Scope service_scope.
Delimit Scope service_scope with service.
Notation "x <- m ;; k" := (Service.bind m (fun x => k))
  (at level 100, m at next level, right associativity) : service_scope.
Notation "m ;; k" := (Service.bind m (fun _ => k))
  (at level 100, right associativity) : service_scope.

(** *** [authStore.login] *)

Module Login.

Import Service.
Local Open Scope service_scope.

Definition login (email password : string) : M AuthStore.State unit :=
  r <- await (AuthSignInWithPassword email password)
         (fun env => auth_sign_in_with_password env email password) ;;
  throw_if_error (error r) ;;
  d <- deref (data r) ;;
  set (fun st =>
         {| AuthStore.isInitialized := AuthStore.isInitialized st;
            AuthStore.session := sign_in_session d;
            AuthStore.user := sign_in_user d;
            AuthStore.account := AuthStore.account st |}) ;;
  lift AuthStore.checkSession.

End Login.

(** *** The rest of [profileStore.ts] *)

Module ProfileDirectory.

Import Service.
Local Open Scope service_scope.

(** The profile store together with the tab's [sessionStorage]. *)
Record Browser : Type := mkBrowser {
  store : ProfileStore.State;
  sessionStorage : gmap string string
}.

Definition KEY : string := "crxq.currentProfile".

(** [sessionStorage.getItem]; a storage that refuses access throws. *)
Definition getItem (key : string) : M Browser (option string) :=
  fun env w =>
    if storage_denied env
    then mkRun (inl (Js.Error "SecurityError")) w []
    else mkRun (inr (sessionStorage w !! key)) w [].

(** [sessionStorage.setItem]; it also throws when the quota is used up. *)
Definition setItem (key value : string) : M Browser unit :=
  fun env w =>
    if storage_denied env then mkRun (inl (Js.Error "SecurityError")) w []
    else if quota_exceeded env then mkRun (inl (Js.Error "QuotaExceededError")) w []
    else mkRun (inr tt)
           {| store := store w; sessionStorage := <[key := value]> (sessionStorage w) |}
           [].

(** [sessionStorage.removeItem] *)
Definition removeItem (key : string) : M Browser unit :=
  fun env w =>
    if storage_denied env then mkRun (inl (Js.Error "SecurityError")) w []
    else mkRun (inr tt)
           {| store := store w; sessionStorage := delete key (sessionStorage w) |}
           [].

Definition loadSavedProfile : M Browser (option MemberProfile.t) :=
  try_catch
    (raw <- getItem KEY ;;
     match raw with
     | Some raw =>
         if Js.truthy_string raw then
           env <- ask ;;
           match JSON_parse env raw with
           | Some parsed => ret parsed
           | None => throw (Js.Error "SyntaxError")
           end
         else ret None
     | None => ret None
     end)
    (fun _ => ret None).

Definition saveProfile (p : option MemberProfile.t) : M Browser unit :=
  try_catch
    (match p with
     | Some p => env <- ask ;; setItem KEY (JSON_stringify env p)
     | None => removeItem KEY
     end)
    (fun _ => ret tt).

(** [set({ ... })] on the profile store. *)
Definition set_store (f : ProfileStore.State -> ProfileStore.State) : M Browser unit :=
  set (fun w => {| store := f (store w); sessionStorage := sessionStorage w |}).

(** The store as [create] builds it when the page loads. *)
Definition create (env : Env) (storage : gmap string string) : Browser :=
  let blank :=
    {| store := {| ProfileStore.currentProfile := None; ProfileStore.profiles := [] |};
       sessionStorage := storage |} in
  let saved := loadSavedProfile env blank in
  {| store :=
       {| ProfileStore.currentProfile :=
            match result saved with inr p => p | inl _ => None end;
          ProfileStore.profiles := [] |};
     sessionStorage := sessionStorage (final saved) |}.

Definition loadProfiles (accountId : string) : M Browser unit :=
  r <- await (MemberProfilesSelect accountId)
         (fun env => member_profiles_select env accountId) ;;
  throw_if_error (error r) ;;
  let profiles := map mapRowToProfile (default [] (data r)) in
  set_store (fun st =>
               {| ProfileStore.currentProfile := ProfileStore.currentProfile st;
                  ProfileStore.profiles := profiles |}).

Definition setCurrentProfile (p : option MemberProfile.t) : M Browser unit :=
  set_store (fun st =>
               {| ProfileStore.currentProfile := p;
                  ProfileStore.profiles := ProfileStore.profiles st |}) ;;
  saveProfile p.

Definition refreshCurrentProfile : M Browser unit :=
  w <- get ;;
  match ProfileStore.currentProfile (store w) with
  | None => ret tt
  | Some p =>
      r <- await (MemberProfilesSelectOne (MemberProfile.id p))
             (fun env => member_profiles_select_one env (MemberProfile.id p)) ;;
      throw_if_error (error r) ;;
      row <- deref (data r) ;;
      let updated := mapRowToProfile row in
      set_store (fun st =>
                   {| ProfileStore.currentProfile := Some updated;
                      ProfileStore.profiles := ProfileStore.profiles st |}) ;;
      saveProfile (Some updated)
  end.

End ProfileDirectory.

(** *** The rest of the profile dashboard service *)

Module DashboardService.

Import Service.
Local Open Scope service_scope.

Inductive CompletionStatus : Type :=
| not_started
| in_progress
| completed.

(** [interface TrainingProgress] *)
Record TrainingProgress : Type := {
  id : Js.value;
  trainingModuleId : Js.value;
  moduleName : Js.value;
  startTime : Js.value;
  completedTime : Js.value;
  completionPercentage : Js.value;
  completionStatus : CompletionStatus
}.

(** [row.is_completed ? 'completed' : (row.started_at ? 'in_progress' : 'not_started')] *)
Definition completion_status (row : TrainingRow.t) : CompletionStatus :=
  if Js.truthy (TrainingRow.is_completed row) then completed
  else if Js.truthy (TrainingRow.started_at row) then in_progress
  else not_started.

(** The object both readers build from a row, up to the module name. *)
Definition progress_of_row (moduleName : Js.value) (row : TrainingRow.t)
  : TrainingProgress :=
  {| id := TrainingRow.id row;
     trainingModuleId := TrainingRow.training_module_id row;
     moduleName := moduleName;
     startTime := TrainingRow.started_at row;
     completedTime := TrainingRow.completed_at row;
     completionPercentage :=
       js_or (TrainingRow.completion_percentage row) (Js.Num (Js.of_Z 0));
     completionStatus := completion_status row |}.

(** [row.training_modules?.name || 'Unknown Module'] *)
Definition joined_module_name (row : TrainingRow.t) : Js.value :=
  js_or (default Js.Undefined (TrainingRow.training_modules_name row))
    (Js.Str "Unknown Module").

Definition getTrainingProgress (profileId : string) : M unit (list TrainingProgress) :=
  r <- await (TrainingProgressSelectJoined profileId)
         (fun env => training_progress_select_joined env profileId) ;;
  throw_if_error (error r) ;;
  ret (map (fun row => progress_of_row (joined_module_name row) row)
         (default [] (data r))).

(** The error of the query is told apart by its [code] alone, so it is the
    code that stands for it here. *)
Definition getModuleProgress (profileId trainingModuleId : string)
  : M unit (option TrainingProgress) :=
  r <- await (TrainingProgressSelectOne profileId trainingModuleId)
         (fun env => training_progress_select_one env profileId trainingModuleId) ;;
  match error r with
  | Some code =>
      if String.eqb code "PGRST116" then ret None
      else throw (Js.RemoteError code)
  | None =>
      row <- deref (data r) ;;
      ret (Some (progress_of_row (Js.Str "Unknown Module") row))
  end.

Definition addBookmark (profileId : string) (resource_path : string) : M unit unit :=
  f <- await (CatalogSelectIdByPath resource_path)
         (fun env => catalog_select_id_by_path env resource_path) ;;
  throw_if_error (error f) ;;
  fileData <- deref (data f) ;;
  r <- await (Store (BookmarksInsert profileId "file" (catalog_id fileData)))
         (fun env => bookmarks_insert (remote env) profileId "file" (catalog_id fileData)) ;;
  throw_if_error (error r).

Definition removeBookmark (profileId resourcePath : string) : M unit unit :=
  f <- await (CatalogSelectIdByPath resourcePath)
         (fun env => catalog_select_id_by_path env resourcePath) ;;
  throw_if_error (error f) ;;
  fileData <- deref (data f) ;;
  r <- await (Store (BookmarksDelete profileId (catalog_id fileData)))
         (fun env => bookmarks_delete (remote env) profileId (catalog_id fileData)) ;;
  throw_if_error (error r).

Definition isBookmarked (profileId resourcePath : string) : M unit bool :=
  f <- await (CatalogSelectIdByPath resourcePath)
         (fun env => catalog_select_id_by_path env resourcePath) ;;
  match error f with
  | Some _ => ret false
  | None =>
      fileData <- deref (data f) ;;
      r <- await (BookmarksSelectId profileId (catalog_id fileData))
             (fun env => bookmarks_select_id env profileId (catalog_id fileData)) ;;
      throw_if_error (error r) ;;
      ret (Nat.ltb 0 (length (default [] (data r))))
  end.

End DashboardService.

(** *** The bookmark actions of the resource views *)

Module ResourceViews.

Import Async.
Local Open Scope async_scope.

(** [handleBookmarkToggle] of the resource card and [handleRemoveBookmark]
    of the bookmarks panel; [currentProfileId] is [currentProfile?.id]. *)
Definition handleBookmarkToggle (currentProfileId : option string)
    (item : StorageFileItem) : M ResourceBookmarkStore.State unit :=
  if negb (Js.truthy_opt currentProfileId) then ret tt
  else
    match currentProfileId with
    | Some id =>
        try_catch (ResourceBookmarkStore.toggleBookmark id item)
          (fun error => console_error)
    | None => ret tt
    end.

End ResourceViews.

(** *** Concrete surroundings *)

Module Examples.

(** Everything succeeds and finds nothing; the storage works; the codec
    knows one profile, whose text is ["alice"]. *)
Definition alice : MemberProfile.t :=
  {| MemberProfile.id := Js.Str "p1";
     MemberProfile.accountId := Js.Str "u1";
     MemberProfile.fullName := Js.Str "Alice";
     MemberProfile.role := Js.Str "Pharmacist";
     MemberProfile.email := Js.Null;
     MemberProfile.phone := Js.Null;
     MemberProfile.isActive := Js.Bool true;
     MemberProfile.createdAt := Js.Str "2025-01-01T00:00:00.000Z";
     MemberProfile.updatedAt := Js.Null |}.

Definition alice_row : ProfileRow.t :=
  {| ProfileRow.id := Js.Str "p1";
     ProfileRow.account_id := Js.Str "u1";
     ProfileRow.full_name := Js.Str "Alice";
     ProfileRow.role := Js.Str "Pharmacist";
     ProfileRow.email := Js.Undefined;
     ProfileRow.phone := Js.Null;
     ProfileRow.is_active := Js.Num (Js.of_Z 1);
     ProfileRow.created_at := Js.Str "2025-01-01T00:00:00.000Z";
     ProfileRow.updated_at := Js.Undefined |}.

Definition env_ok : Service.Env :=
  {| Service.remote := Scenario.remote_ok;
     Service.auth_sign_in_with_password := fun _ _ =>
       Fulfilled (mkResponse
                    (Some {| sign_in_session := Some {| Auth.user := Some Scenario.owner |};
                             sign_in_user := Some Scenario.owner |}) None);
     Service.member_profiles_select := fun _ =>
       Fulfilled (mkResponse (Some [alice_row]) None);
     Service.member_profiles_select_one := fun _ =>
       Fulfilled (mkResponse (Some alice_row) None);
     Service.catalog_select_id_by_path := fun _ =>
       Fulfilled (mkResponse (Some {| catalog_id := "C1" |}) None);
     Service.bookmarks_select_id := fun _ _ => Fulfilled (mkResponse (Some []) None);
     Service.training_progress_select_one := fun _ _ =>
       Fulfilled (mkResponse None (Some "PGRST116"));
     Service.training_progress_select_joined := fun _ =>
       Fulfilled (mkResponse (Some []) None);
     Service.JSON_stringify := fun _ => "alice";
     Service.JSON_parse := fun s =>
       if String.eqb s "alice" then Some (Some alice) else None;
     Service.storage_denied := false;
     Service.quota_exceeded := false |}.

(** As [env_ok], with another remote side for the stores' requests. *)
Definition with_remote (r : Remote) (env : Service.Env) : Service.Env :=
  {| Service.remote := r;
     Service.auth_sign_in_with_password := Service.auth_sign_in_with_password env;
     Service.member_profiles_select := Service.member_profiles_select env;
     Service.member_profiles_select_one := Service.member_profiles_select_one env;
     Service.catalog_select_id_by_path := Service.catalog_select_id_by_path env;
     Service.bookmarks_select_id := Service.bookmarks_select_id env;
     Service.training_progress_select_one := Service.training_progress_select_one env;
     Service.training_progress_select_joined := Service.training_progress_select_joined env;
     Service.JSON_stringify := Service.JSON_stringify env;
     Service.JSON_parse := Service.JSON_parse env;
     Service.storage_denied := Service.storage_denied env;
     Service.quota_exceeded := Service.quota_exceeded env |}.

(** A remote side whose session belongs to the owner and whose account row
    is there. *)
Definition remote_signed_in : Remote :=
  {| catalog_select_id := catalog_select_id Scenario.remote_ok;
     bookmarks_delete := bookmarks_delete Scenario.remote_ok;
     bookmarks_insert := bookmarks_insert Scenario.remote_ok;
     bookmarks_select_joined := bookmarks_select_joined Scenario.remote_ok;
     auth_sign_out := auth_sign_out Scenario.remote_ok;
     auth_get_session :=
       Fulfilled (mkResponse
                    (Some {| Auth.session := Some {| Auth.user := Some Scenario.owner |} |})
                    None);
     accounts_select := fun _ => Fulfilled (mkResponse (Some Scenario.account_row) None);
     accounts_update := accounts_update Scenario.remote_ok;
     member_profiles_insert := member_profiles_insert Scenario.remote_ok;
     training_progress_update := training_progress_update Scenario.remote_ok;
     now := now Scenario.remote_ok |}.

(** The same session, but the account fetch fails. *)
Definition remote_account_down : Remote :=
  {| catalog_select_id := catalog_select_id Scenario.remote_ok;
     bookmarks_delete := bookmarks_delete Scenario.remote_ok;
     bookmarks_insert := bookmarks_insert Scenario.remote_ok;
     bookmarks_select_joined := bookmarks_select_joined Scenario.remote_ok;
     auth_sign_out := auth_sign_out Scenario.remote_ok;
     auth_get_session :=
       Fulfilled (mkResponse
                    (Some {| Auth.session := Some {| Auth.user := Some Scenario.owner |} |})
                    None);
     accounts_select := fun _ => Fulfilled (mkResponse None (Some "timeout"));
     accounts_update := accounts_update Scenario.remote_ok;
     member_profiles_insert := member_profiles_insert Scenario.remote_ok;
     training_progress_update := training_progress_update Scenario.remote_ok;
     now := now Scenario.remote_ok |}.

(** A cache that holds the form of the scenario. *)
Definition form1_bookmarked : ResourceBookmarkStore.State :=
  ResourceBookmarkStore.set_bookmarkedResources
    {[ "mtm/form1.pdf" := "C1"; "hba1c/guide.pdf" := "C7" ]}
    ResourceBookmarkStore.init.

(** A cache that holds another file only. *)
Definition form1_other : ResourceBookmarkStore.State :=
  ResourceBookmarkStore.set_bookmarkedResources
    {[ "hba1c/guide.pdf" := "C7" ]} ResourceBookmarkStore.init.

(** A tab with nothing selected and an unrelated key in its storage. *)
Definition fresh_tab : ProfileDirectory.Browser :=
  {| ProfileDirectory.store := Scenario.no_profiles;
     ProfileDirectory.sessionStorage := {[ "returnTo" := "/resources" ]} |}.

(** Two progress rows: one joined to its module, half done; one whose
    module is gone from the catalog, flagged complete. *)
Definition training_rows : list TrainingRow.t :=
  [ {| TrainingRow.id := Js.Str "t1";
       TrainingRow.training_module_id := Js.Str "training_mtm";
       TrainingRow.started_at := Js.Str "2025-01-01T00:00:00.000Z";
       TrainingRow.completed_at := Js.Null;
       TrainingRow.completion_percentage := Js.Num (Js.of_Z 50);
       TrainingRow.is_completed := Js.Bool false;
       TrainingRow.training_modules_name := Some (Js.Str "MTM Basics") |};
    {| TrainingRow.id := Js.Str "t2";
       TrainingRow.training_module_id := Js.Str "training_hba1c";
       TrainingRow.started_at := Js.Str "2025-01-02T00:00:00.000Z";
       TrainingRow.completed_at := Js.Str "2025-01-03T00:00:00.000Z";
       TrainingRow.completion_percentage := Js.Null;
       TrainingRow.is_completed := Js.Bool true;
       TrainingRow.training_modules_name := None |} ].

(** As [env_ok], with those rows as the training progress of every profile. *)
Definition env_training : Service.Env :=
  {| Service.remote := Service.remote env_ok;
     Service.auth_sign_in_with_password := Service.auth_sign_in_with_password env_ok;
     Service.member_profiles_select := Service.member_profiles_select env_ok;
     Service.member_profiles_select_one := Service.member_profiles_select_one env_ok;
     Service.catalog_select_id_by_path := Service.catalog_select_id_by_path env_ok;
     Service.bookmarks_select_id := Service.bookmarks_select_id env_ok;
     Service.training_progress_select_one := Service.training_progress_select_one env_ok;
     Service.training_progress_select_joined := fun _ =>
       Fulfilled (mkResponse (Some training_rows) None);
     Service.JSON_stringify := Service.JSON_stringify env_ok;
     Service.JSON_parse := Service.JSON_parse env_ok;
     Service.storage_denied := Service.storage_denied env_ok;
     Service.quota_exceeded := Service.quota_exceeded env_ok |}.

End Examples.

(** *** Calls to [toggleBookmark] that overlap *)

Module Overlap.

Import Async.
Import ResourceBookmarkStore.
Local Open Scope async_scope.

(** [toggleBookmark] from its second line on: [snapshot] is the store its
    [get()] read when the call started, and the store it writes to at the
    end is the store of that later moment.  For a call that runs alone the
    two are the same store. *)
Definition toggleBookmark_resumed (snapshot : State) (profileId : string)
    (resource : StorageFileItem) : M State unit :=
  let bookmarkedResources := bookmarkedResources snapshot in
  let wasBookmarked := has bookmarkedResources (path resource) in
  catalogId <-
    (if negb (Js.truthy_opt (catalogId resource)) && negb wasBookmarked then
       r <- await (CatalogSelectId (path resource) "clinicalrxqfiles")
              (fun env => catalog_select_id env (path resource) "clinicalrxqfiles") ;;
       match data r with
       | Some row =>
           if Js.truthy_string (catalog_id row)
           then ret (Some (catalog_id row))
           else throw (Js.Error "Resource not found in catalog")
       | None => throw (Js.Error "Resource not found in catalog")
       end
     else ret (catalogId resource)) ;;
  try_catch
    (if wasBookmarked then
       match bookmarkedResources !! path resource with
       | Some existingCatalogId =>
           if Js.truthy_string existingCatalogId then
             await (BookmarksDelete profileId existingCatalogId)
               (fun env => bookmarks_delete env profileId existingCatalogId) ;;
             set (set_bookmarkedResources
                    (delete (path resource) bookmarkedResources))
           else console_error ;; ret tt
       | None => console_error ;; ret tt
       end
     else
       match catalogId with
       | Some id =>
           if Js.truthy_string id then
             await (BookmarksInsert profileId "file" id)
               (fun env => bookmarks_insert env profileId "file" id) ;;
             set (set_bookmarkedResources
                    (<[path resource := id]> bookmarkedResources))
           else throw (Js.Error "Catalog ID required to create bookmark")
       | None => throw (Js.Error "Catalog ID required to create bookmark")
       end)
    (fun error => console_error ;; throw error).


(** A remote side under which a toggle of the resource goes through: the
    insert and the delete fulfil, and the resource carries its catalog
    identifier or the catalog returns one for its path. *)
Definition cooperative (profileId : string) (resource : StorageFileItem)
    (env : Remote) : Prop :=
  (forall id, exists r, bookmarks_insert env profileId "file" id = Fulfilled r)
  /\ (forall id, exists r, bookmarks_delete env profileId id = Fulfilled r)
  /\ (Js.truthy_opt (catalogId resource) = true
      \/ exists resp row,
           catalog_select_id env (path resource) "clinicalrxqfiles" = Fulfilled resp
           /\ data resp = Some row
           /\ Js.truthy_string (catalog_id row) = true).

End Overlap.

(** * Properties *)

(** ** Running an operation *)

(** Run an operation symbolically: unfold the combinators, the stores'
    accessors and the operations themselves, down to the matches on what the
    remote side answered and on what the maps hold.  The maps' own operations
    stay folded. *)
Ltac run :=
  lazy beta iota zeta delta
    [Async.try_finally Async.try_catch Async.bind Async.await
     Async.throw_if_error Async.deref Async.console_error Async.Date_now
     Async.set Async.get Async.throw Async.ret
     Async.result Async.final Async.calls
     negb andb orb app default mbind option_bind
     data error path catalogId catalog_id
     Js.truthy_opt
     ResourceBookmarkStore.bookmarkedResources ResourceBookmarkStore.loading
     ResourceBookmarkStore.set_bookmarkedResources
     ResourceBookmarkStore.set_loading
     ResourceBookmarkStore.has ResourceBookmarkStore.isBookmarked
     ResourceBookmarkStore.toggleBookmark ResourceBookmarkStore.loadBookmarks
     ResourceBookmarkStore.clearBookmarks
     AuthStore.isInitialized AuthStore.session AuthStore.user AuthStore.account
     AuthStore.logout AuthStore.checkSession AuthStore.updateAccount
     Auth.session Auth.user Auth.id
     ProfileStore.currentProfile ProfileStore.profiles ProfileStore.addProfile
     TrainingPayload.completion_percentage TrainingPayload.is_completed
     TrainingPayload.completed_at
     TrainingProgress.updateTrainingProgress
     TrainingProgress.completeTrainingModule].

(** Split on one answer and run on. *)
Tactic Notation "answer" constr(x) "as" simple_intropattern(pat) :=
  destruct x as pat; run.
Tactic Notation "answer" constr(x) "as" simple_intropattern(pat) "eqn" ":" ident(H) :=
  destruct x as pat eqn:H; run.

(** ** Bookmarks *)

Section Bookmarks.

Import ResourceBookmarkStore.

Implicit Types (st : State) (env : Remote) (resource : StorageFileItem).

Lemma isBookmarked_lookup p st :
  isBookmarked p st = true <-> is_Some (bookmarkedResources st !! p).
Proof.
  unfold isBookmarked, has.
  destruct (bookmarkedResources st !! p); split; intros H; try done.
Qed.

(** [resource.catalogId] is either a non-empty string or falsy. *)
Lemma known_catalogId (cid : option string) :
  (exists id, cid = Some id /\ Js.truthy_string id = true)
  \/ (cid = None \/ exists s, cid = Some s /\ Js.truthy_string s = false).
Proof.
  destruct cid as [s|]; [|by right; left].
  destruct (Js.truthy_string s) eqn:Hs; [left|right; right]; eauto.
Qed.

Lemma not_bookmarked_cache_ok p st :
  isBookmarked p st = false -> cache_ok p st.
Proof.
  unfold isBookmarked, has, cache_ok. intros H id Hid. by rewrite Hid in H.
Qed.

(** One call either throws and leaves the store as it was, or returns and
    flips the membership of the resource's path. *)
Lemma toggleBookmark_step profileId resource env st :
  cache_ok (path resource) st ->
  let r := toggleBookmark profileId resource env st in
  match Async.result r with
  | inl _ => Async.final r = st
  | inr _ =>
      isBookmarked (path resource) (Async.final r)
        = negb (isBookmarked (path resource) st)
      /\ cache_ok (path resource) (Async.final r)
  end.
Proof.
  destruct st as [m l], resource as [p cid]. unfold cache_ok.
  assert (Hins : forall id, Js.truthy_string id = true ->
            <[p:=id]> m !! p = Some id /\
            forall id', <[p:=id]> m !! p = Some id' ->
                        Js.truthy_string id' = true).
  { intros id Hid. rewrite lookup_insert_eq. split; [done|congruence]. }
  assert (Hdel : delete p m !! p = None) by apply lookup_delete_eq.
  run. intros Hok.
  destruct (known_catalogId cid) as [[id [-> Hid]]|Hcid].
  - (* the resource carries its catalog identifier: no lookup *)
    run. rewrite Hid. run.
    answer (m !! p) as [existing|] eqn:Hm.
    + rewrite (Hok _ eq_refl).
      answer (bookmarks_delete env profileId existing) as [?|?]; [|done].
      by rewrite Hdel.
    + rewrite Hid.
      answer (bookmarks_insert env profileId "file" id) as [?|?]; [|done].
      destruct (Hins id Hid) as [-> ?]. by split.
  - (* it does not *)
    assert (match cid with Some s => Js.truthy_string s | None => false end = false)
      as -> by (destruct Hcid as [->| [s [-> ?]]]; done).
    answer (m !! p) as [existing|] eqn:Hm.
    + rewrite (Hok _ eq_refl).
      answer (bookmarks_delete env profileId existing) as [?|?]; [|done].
      by rewrite Hdel.
    + answer (catalog_select_id env p "clinicalrxqfiles") as [[[[rid]|] ?]|];
        try done.
      answer (Js.truthy_string rid) as [|] eqn:Hrow; [|done].
      rewrite Hrow; run.
      answer (bookmarks_insert env profileId "file" rid) as [?|?]; [|done].
      destruct (Hins _ Hrow) as [-> ?]. by split.
Qed.


(** A call alone is its resumption on the store it started from. *)
Lemma toggleBookmark_resumed_alone profileId resource env st :
  toggleBookmark profileId resource env st
  = Overlap.toggleBookmark_resumed st profileId resource env st.
Proof.
  unfold toggleBookmark, Overlap.toggleBookmark_resumed.
  unfold Async.bind at 1. unfold Async.get.
  cbn [Async.result Async.final Async.calls app].
  match goal with |- Async.mkRun (Async.result ?r) _ _ = _ => by destruct r end.
Qed.





(** Three calls in a row against a remote side that accepts everything:
    all three complete, and the path ends bookmarked. *)
Example toggle_session_three :
  let s := toggle_session "alice" Scenario.form1
             [Scenario.remote_ok; Scenario.remote_ok; Scenario.remote_ok] init in
  s.2 = 3 /\ Nat.odd s.2 = true /\ isBookmarked "mtm/form1.pdf" s.1 = true
  /\ Forall (Overlap.cooperative "alice" Scenario.form1)
       [Scenario.remote_ok; Scenario.remote_ok; Scenario.remote_ok].
Proof.
  split; [by vm_compute|]. split; [by vm_compute|]. split; [by vm_compute|].
  repeat constructor; unfold Overlap.cooperative; cbn; eauto.
Qed.


(** A session with a failure in it: bookmark, remove, a rejected insert,
    and bookmark again; three calls returned and the path is bookmarked. *)
Example toggle_session_example :
  let s := toggle_session "alice" Scenario.form1
             [Scenario.remote_ok; Scenario.remote_ok;
              Scenario.with_bookmarks_insert (Rejected (Js.Error "offline"))
                Scenario.remote_ok;
              Scenario.remote_ok] init in
  s.2 = 3 /\ isBookmarked "mtm/form1.pdf" s.1 = true.
Proof. vm_compute. done. Qed.

(** C2.  With the resource of the scenario not yet bookmarked and a remote
    side whose insert into [bookmarks] fails — the promise fulfils with an
    [error] in its result, as the query builder reports failures — the call
    to [toggleBookmark] returns without throwing and the path is in the
    local cache: the cache shows a bookmark the backend refused. *)
Theorem toggleBookmark_ignores_insert_error :
  let env :=
    Scenario.with_bookmarks_insert
      (Fulfilled (mkResponse tt (Some "permission denied"))) Scenario.remote_ok in
  let r := toggleBookmark "alice" Scenario.form1 env init in
  Async.result r = inr tt
  /\ Async.calls r = [BookmarksInsert "alice" "file" "C1"]
  /\ isBookmarked "mtm/form1.pdf" init = false
  /\ isBookmarked "mtm/form1.pdf" (Async.final r) = true.
Proof. vm_compute. done. Qed.

(** The same on removal: the delete fails, the call returns and the path is
    gone from the cache while the backend still has the bookmark. *)
Example toggleBookmark_ignores_delete_error :
  let env :=
    Scenario.with_bookmarks_delete
      (Fulfilled (mkResponse tt (Some "permission denied"))) Scenario.remote_ok in
  let bookmarked := set_bookmarkedResources {[ "mtm/form1.pdf" := "C1" ]} init in
  let r := toggleBookmark "alice" Scenario.form1 env bookmarked in
  Async.result r = inr tt
  /\ Async.calls r = [BookmarksDelete "alice" "C1"]
  /\ isBookmarked "mtm/form1.pdf" bookmarked = true
  /\ isBookmarked "mtm/form1.pdf" (Async.final r) = false.
Proof. vm_compute. done. Qed.

(** When the promise of the insert or of the delete rejects, the exception
    reaches the caller and the store is as before the call. *)
Lemma toggleBookmark_rejected profileId resource env st e :
  (isBookmarked (path resource) st = false ->
   Js.truthy_opt (catalogId resource) = true ->
   (forall id, bookmarks_insert env profileId "file" id = Rejected e) ->
   Async.result (toggleBookmark profileId resource env st) = inl e
   /\ Async.final (toggleBookmark profileId resource env st) = st)
  /\ (isBookmarked (path resource) st = true ->
      cache_ok (path resource) st ->
      (forall id, bookmarks_delete env profileId id = Rejected e) ->
      Async.result (toggleBookmark profileId resource env st) = inl e
      /\ Async.final (toggleBookmark profileId resource env st) = st).
Proof.
  destruct st as [m l], resource as [p cid]. unfold cache_ok. run. split.
  - intros Hno Hcid Hrej. destruct cid as [cid|]; [|done]. rewrite Hcid.
    answer (m !! p) as [?|]; [done|]. rewrite Hcid. run. by rewrite Hrej.
  - intros Hyes Hok Hrej.
    answer (m !! p) as [existing|] eqn:Hm; [|done].
    rewrite (Hok _ eq_refl).
    destruct (match cid with Some s => Js.truthy_string s | None => false end);
      run; by rewrite Hrej.
Qed.

(** C6.  If the resource is not bookmarked, carries no catalog identifier,
    and the lookup of its path in the catalog returns no row (or a row with
    no identifier), [toggleBookmark] throws "Resource not found in catalog";
    the lookup is the only request it sent, so nothing was inserted, and
    the store is as before the call. *)
Theorem toggleBookmark_unknown_resource profileId resource env st resp :
  isBookmarked (path resource) st = false ->
  Js.truthy_opt (catalogId resource) = false ->
  catalog_select_id env (path resource) "clinicalrxqfiles" = Fulfilled resp ->
  match data resp with
  | Some row => Js.truthy_string (catalog_id row)
  | None => false
  end = false ->
  let r := toggleBookmark profileId resource env st in
  Async.result r = inl (Js.Error "Resource not found in catalog")
  /\ Async.calls r = [CatalogSelectId (path resource) "clinicalrxqfiles"]
  /\ Async.final r = st.
Proof.
  destruct st as [m l], resource as [p cid], resp as [[[rid]|] err];
    run; intros Hno Hcid Hresp Hrow.
  - answer (m !! p) as [?|]; [done|]. rewrite Hcid. run. rewrite Hresp. run.
    by rewrite Hrow.
  - answer (m !! p) as [?|]; [done|]. rewrite Hcid. run. by rewrite Hresp.
Qed.

Lemma toggleBookmark_unknown_resource_witness :
  let r := toggleBookmark "alice" Scenario.form1_unresolved Scenario.remote_ok init in
  Async.result r = inl (Js.Error "Resource not found in catalog")
  /\ Async.calls r = [CatalogSelectId "mtm/form1.pdf" "clinicalrxqfiles"]
  /\ Async.final r = init.
Proof.
  apply (toggleBookmark_unknown_resource "alice" Scenario.form1_unresolved
           Scenario.remote_ok init (mkResponse None None));
    reflexivity.
Defined.

(** *** Loading *)

Lemma add_bookmark_row_intact m row fp :
  intact row fp ->
  add_bookmark_row m row = <[Js.strip_leading_slashes fp := resource_id row]> m.
Proof.
  intros (catalog & Hc & Hfp & Ht). unfold add_bookmark_row.
  by rewrite Hc, Hfp, Ht.
Qed.

Lemma add_bookmark_row_cases m row :
  add_bookmark_row m row = m \/ exists fp, intact row fp.
Proof.
  unfold add_bookmark_row, intact.
  destruct (storage_files_catalog row) as [catalog|]; [|by left].
  destruct (file_path catalog) as [fp|] eqn:Hfp; [|by left].
  destruct (Js.truthy_string fp) eqn:Ht; [|by left].
  right. eauto.
Qed.

Lemma add_bookmark_row_keeps m row k :
  is_Some (m !! k) -> is_Some (add_bookmark_row m row !! k).
Proof.
  intros Hk. destruct (add_bookmark_row_cases m row) as [->|[fp Hfp]]; [done|].
  rewrite (add_bookmark_row_intact _ _ _ Hfp), lookup_insert_is_Some.
  destruct (decide (Js.strip_leading_slashes fp = k)); auto.
Qed.

Lemma fold_rows_keeps rows : forall m k,
  is_Some (m !! k) -> is_Some (fold_left add_bookmark_row rows m !! k).
Proof.
  induction rows as [|row rows IH]; intros m k Hk; cbn; [done|].
  by apply IH, add_bookmark_row_keeps.
Qed.

(** Every row with an intact join leaves its normalised path in the map. *)
Lemma fold_rows_contains rows : forall m row fp,
  row ∈ rows -> intact row fp ->
  is_Some (fold_left add_bookmark_row rows m !! Js.strip_leading_slashes fp).
Proof.
  induction rows as [|row' rows IH]; intros m row fp Hin Hfp; cbn.
  - by apply elem_of_nil in Hin.
  - apply elem_of_cons in Hin as [->|Hin]; [|by eapply IH].
    apply fold_rows_keeps.
    rewrite (add_bookmark_row_intact _ _ _ Hfp), lookup_insert_eq. eauto.
Qed.

(** Every entry of the map comes from a row with an intact join. *)
Lemma fold_rows_origin rows : forall m k id,
  fold_left add_bookmark_row rows m !! k = Some id ->
  m !! k = Some id
  \/ exists row fp,
       row ∈ rows /\ intact row fp
       /\ Js.strip_leading_slashes fp = k /\ resource_id row = id.
Proof.
  induction rows as [|row rows IH]; intros m k id Hk; cbn in *; [by left|].
  apply IH in Hk as [Hk|(row' & fp & Hin & Hfp & Hp & Hid)].
  - destruct (add_bookmark_row_cases m row) as [Hsame|[fp Hfp]].
    + left. by rewrite Hsame in Hk.
    + rewrite (add_bookmark_row_intact _ _ _ Hfp) in Hk.
      apply lookup_insert_Some in Hk as [[Hp Hid]|[_ Hk]]; [|by left].
      right. exists row, fp. by rewrite elem_of_cons; eauto.
  - right. exists row', fp. rewrite elem_of_cons; eauto.
Qed.

(** What a load does when the select fulfils without error. *)
Lemma loadBookmarks_fulfilled profileId env st resp :
  bookmarks_select_joined env profileId "file" = Fulfilled resp ->
  error resp = None ->
  loadBookmarks profileId env st
  = Async.mkRun (inr tt)
      {| bookmarkedResources := build_resources (default [] (data resp));
         loading := false |}
      [BookmarksSelectJoined profileId "file"].
Proof.
  destruct st as [m l], resp as [rows err]. run. intros Hsel Herr.
  rewrite Hsel. run. by rewrite Herr.
Qed.

(** A load whose select reports an error or rejects returns all the same,
    with the cache as it was. *)
Lemma loadBookmarks_failed profileId env st :
  match bookmarks_select_joined env profileId "file" with
  | Fulfilled (mkResponse _ None) => True
  | _ =>
      Async.result (loadBookmarks profileId env st) = inr tt
      /\ Async.final (loadBookmarks profileId env st) = set_loading false st
  end.
Proof.
  destruct st as [m l]. run.
  answer (bookmarks_select_joined env profileId "file") as [[rows [e|]]|e]; done.
Qed.

(** C9, as the code has it.  After [loadBookmarks] on a select that
    fulfilled without error, the call has returned, [loading] is off, and
    the cache is the map built from the returned rows alone, whatever it
    held before.  For every returned row whose catalog join is there with a
    non-empty path, [isBookmarked] is true of that path with its leading
    slashes removed; rows without such a join add nothing, and every entry
    of the cache maps the normalised path of such a row to its
    [resource_id]. *)
Theorem loadBookmarks_round_trip profileId env st resp :
  bookmarks_select_joined env profileId "file" = Fulfilled resp ->
  error resp = None ->
  let r := loadBookmarks profileId env st in
  let rows := default [] (data resp) in
  Async.result r = inr tt
  /\ loading (Async.final r) = false
  /\ bookmarkedResources (Async.final r) = build_resources rows
  /\ (forall row fp,
        row ∈ rows -> intact row fp ->
        isBookmarked (Js.strip_leading_slashes fp) (Async.final r) = true)
  /\ (forall k id,
        bookmarkedResources (Async.final r) !! k = Some id ->
        exists row fp,
          row ∈ rows /\ intact row fp
          /\ Js.strip_leading_slashes fp = k /\ resource_id row = id).
Proof.
  intros Hsel Herr. cbv zeta.
  rewrite (loadBookmarks_fulfilled _ _ _ _ Hsel Herr).
  cbn [Async.result Async.final bookmarkedResources loading].
  repeat split; try done.
  - intros row fp Hin Hfp. apply isBookmarked_lookup.
    by eapply fold_rows_contains.
  - intros k id Hk. apply fold_rows_origin in Hk as [Hk|Hk]; [|done].
    by rewrite lookup_empty in Hk.
Qed.

Lemma loadBookmarks_round_trip_witness :
  let rows := [Scenario.slashed_row; Scenario.orphan_row; Scenario.plain_row] in
  let env :=
    Scenario.with_bookmarks_select (Fulfilled (mkResponse (Some rows) None))
      Scenario.remote_ok in
  let r := loadBookmarks "alice" env init in
  Async.result r = inr tt
  /\ loading (Async.final r) = false
  /\ bookmarkedResources (Async.final r) = build_resources rows
  /\ (forall row fp,
        row ∈ rows -> intact row fp ->
        isBookmarked (Js.strip_leading_slashes fp) (Async.final r) = true)
  /\ (forall k id,
        bookmarkedResources (Async.final r) !! k = Some id ->
        exists row fp,
          row ∈ rows /\ intact row fp
          /\ Js.strip_leading_slashes fp = k /\ resource_id row = id).
Proof.
  exact (loadBookmarks_round_trip "alice"
           (Scenario.with_bookmarks_select
              (Fulfilled
                 (mkResponse
                    (Some [Scenario.slashed_row; Scenario.orphan_row; Scenario.plain_row])
                    None))
              Scenario.remote_ok)
           init
           (mkResponse
              (Some [Scenario.slashed_row; Scenario.orphan_row; Scenario.plain_row])
              None)
           eq_refl eq_refl).
Defined.

(** The rows of the witness: the orphan is skipped, the other two are
    bookmarked under their normalised paths. *)
Example loadBookmarks_example :
  let rows := [Scenario.slashed_row; Scenario.orphan_row; Scenario.plain_row] in
  build_resources rows = {[ "mtm/form1.pdf" := "C1"; "mtm/form3.pdf" := "C3" ]}.
Proof. by vm_compute. Qed.

(** C9, as stated, fails: the remote store returns a row whose catalog
    path is ["/mtm/form1.pdf"], the join intact; the load succeeds, and
    [isBookmarked] of that path is false (the cache holds
    ["mtm/form1.pdf"]). *)
Lemma loadBookmarks_slashed_path_not_bookmarked :
  let env :=
    Scenario.with_bookmarks_select
      (Fulfilled (mkResponse (Some [Scenario.slashed_row]) None))
      Scenario.remote_ok in
  let r := loadBookmarks "alice" env init in
  Async.result r = inr tt
  /\ file_path <$> storage_files_catalog Scenario.slashed_row
     = Some (Some "/mtm/form1.pdf")
  /\ isBookmarked "/mtm/form1.pdf" (Async.final r) = false
  /\ isBookmarked "mtm/form1.pdf" (Async.final r) = true.
Proof. vm_compute. done. Qed.

End Bookmarks.

(** ** Session manager *)

Section Session.

Import AuthStore.

Implicit Types (st : State) (env : Remote).

(** C3.  Whatever the remote side answers — the session read or the account
    fetch fulfilling, fulfilling with an error or without a row, or
    rejecting — [checkSession] returns without throwing and leaves
    [isInitialized] true. *)
Theorem checkSession_initializes env st :
  let r := checkSession env st in
  Async.result r = inr tt
  /\ isInitialized (Async.final r) = true.
Proof.
  destruct st as [i s u a]. run.
  answer (auth_get_session env) as [[[[[[[[uid]|]]|]]|] err]|e]; try done.
  answer (accounts_select env uid) as [[[row|] [err'|]]|e]; done.
Qed.

(** What [checkSession] leaves in the store when everything succeeds. *)
Lemma checkSession_success env st u row err :
  auth_get_session env
  = Fulfilled (mkResponse (Some {| Auth.session := Some {| Auth.user := Some u |} |}) err) ->
  accounts_select env (Auth.id u) = Fulfilled (mkResponse (Some row) None) ->
  Async.final (checkSession env st)
  = {| isInitialized := true;
       session := Some {| Auth.user := Some u |};
       user := Some u;
       account := Some (mapRowToAccount row) |}.
Proof.
  destruct st as [i s u0 a], u as [uid]. run. intros Hs Ha.
  rewrite Hs. run. by rewrite Ha.
Qed.

(** Were the promise of the sign-out itself to reject, nothing in [logout]
    would catch it. *)
Lemma logout_rejected env st e :
  auth_sign_out env = Rejected e ->
  Async.result (logout env st) = inl e /\ Async.final (logout env st) = st.
Proof. destruct st. run. by intros ->. Qed.

(** C4.  [logout] does not throw when the remote sign-out fails, and the
    session, the user and the account are cleared whether or not the
    sign-out succeeded.  The auth client reports a failed sign-out as the
    [error] of the result its promise fulfils with; for every such result —
    with an error or without — [logout] returns without throwing and the
    session, the user and the account are null. *)
Theorem logout_clears env st resp :
  auth_sign_out env = Fulfilled resp ->
  let r := logout env st in
  Async.result r = inr tt
  /\ session (Async.final r) = None
  /\ user (Async.final r) = None
  /\ account (Async.final r) = None.
Proof. destruct st. run. by intros ->. Qed.

Lemma logout_clears_witness :
  let r := logout
             (Scenario.with_sign_out
                (Fulfilled (mkResponse tt (Some "network request failed")))
                Scenario.remote_ok)
             Scenario.signed_in in
  Async.result r = inr tt
  /\ session (Async.final r) = None
  /\ user (Async.final r) = None
  /\ account (Async.final r) = None.
Proof.
  apply (logout_clears
           (Scenario.with_sign_out
              (Fulfilled (mkResponse tt (Some "network request failed")))
              Scenario.remote_ok)
           Scenario.signed_in
           (mkResponse tt (Some "network request failed"))).
  reflexivity.
Defined.

(** C8, as the code has it.  Without a user [updateAccount] returns null,
    sends nothing and leaves the store alone.  With a user it sends one
    update of that user's row, whose payload is built from the patch as
    follows: [pharmacy_name] and [subscription_status] are written only when
    the patch provides them, the phone and the address fields are written as
    provided and as null when the patch leaves them out, and [updated_at] is
    always written; [id], [email] and [created_at] are never written.  When
    the update fulfils without error with the refreshed row, the account
    mapped from it is stored and returned. *)
Theorem updateAccount_writes patch env st :
  let r := updateAccount patch env st in
  match user st with
  | None =>
      Async.result r = inr None /\ Async.calls r = [] /\ Async.final r = st
  | Some u =>
      let payload := update_payload patch (now env) in
      Async.calls r = [AccountsUpdate (Auth.id u) payload]
      /\ (forall row,
            let row' := AccountsTable.update payload row in
            AccountRow.id row' = AccountRow.id row
            /\ AccountRow.email row' = AccountRow.email row
            /\ AccountRow.created_at row' = AccountRow.created_at row
            /\ AccountRow.pharmacy_name row'
               = AccountsTable.written (AccountRow.pharmacy_name row)
                   (Account.pharmacyName patch)
            /\ AccountRow.subscription_status row'
               = (if Js.nullish (Account.subscriptionStatus patch)
                  then AccountRow.subscription_status row
                  else Account.subscriptionStatus patch)
            /\ AccountRow.pharmacy_phone row' = Account.pharmacyPhone patch ?? Js.Null
            /\ AccountRow.address1 row' = Account.address1 patch ?? Js.Null
            /\ AccountRow.city row' = Account.city patch ?? Js.Null
            /\ AccountRow.state row' = Account.state patch ?? Js.Null
            /\ AccountRow.zipcode row' = Account.zipcode patch ?? Js.Null
            /\ AccountRow.updated_at row' = Js.Str (now env))
      /\ match accounts_update env (Auth.id u) payload with
         | Fulfilled (mkResponse (Some refreshed) None) =>
             Async.result r = inr (Some (mapRowToAccount refreshed))
             /\ account (Async.final r) = Some (mapRowToAccount refreshed)
         | Fulfilled (mkResponse _ (Some e)) =>
             Async.result r = inl (Js.RemoteError e) /\ Async.final r = st
         | Fulfilled (mkResponse None None) =>
             Async.result r = inl Js.TypeError /\ Async.final r = st
         | Rejected e => Async.result r = inl e /\ Async.final r = st
         end
  end.
Proof.
  destruct st as [i s [[uid]|] a]; run; [|done].
  split; [|split].
  - answer (accounts_update env uid (update_payload patch (now env)))
      as [[[row|] [e|]]|e]; done.
  - intros row. unfold AccountsTable.update, update_payload. cbn.
    repeat split;
      try (by unfold Js.coalesce;
           match goal with |- context [Js.nullish ?v] => destruct v end).
  - answer (accounts_update env uid (update_payload patch (now env)))
      as [[[row|] [e|]]|e]; done.
Qed.

(** C8, as stated, fails: signed in, a patch that provides the pharmacy
    name only sends a payload that also overwrites the phone of the row
    (["555-0100"] before) with null. *)
Lemma updateAccount_overwrites_unmentioned_field :
  let r := updateAccount Scenario.rename_patch Scenario.remote_ok Scenario.signed_in in
  let payload := update_payload Scenario.rename_patch (now Scenario.remote_ok) in
  Account.pharmacyPhone Scenario.rename_patch = Js.Undefined
  /\ Async.calls r = [AccountsUpdate (Js.Str "u1") payload]
  /\ AccountRow.pharmacy_phone Scenario.account_row = Js.Str "555-0100"
  /\ AccountRow.pharmacy_phone (AccountsTable.update payload Scenario.account_row)
     = Js.Null.
Proof. vm_compute. done. Qed.

End Session.

(** ** Profile directory *)

Section Profiles.

Import ProfileStore.

Implicit Types (st : State) (env : Remote) (p : MemberProfile.t).

(** C5, as the code has it.  [addProfile] checks nothing about its input:
    for every input it sends exactly one insert into [member_profiles],
    carrying the payload built from the input.  It throws only what the
    insert gives it to throw — a rejection, an error result, or a missing
    row — and then the profile set is as before; otherwise the created
    profile is appended to the set and returned. *)
Theorem addProfile_inserts p env st :
  let r := addProfile p env st in
  Async.calls r = [MemberProfilesInsert (insert_payload p)]
  /\ match member_profiles_insert env (insert_payload p) with
     | Fulfilled (mkResponse (Some row) None) =>
         Async.result r = inr (mapRowToProfile row)
         /\ profiles (Async.final r) = (profiles st ++ [mapRowToProfile row])%list
         /\ currentProfile (Async.final r) = currentProfile st
     | Fulfilled (mkResponse _ (Some e)) =>
         Async.result r = inl (Js.RemoteError e) /\ Async.final r = st
     | Fulfilled (mkResponse None None) =>
         Async.result r = inl Js.TypeError /\ Async.final r = st
     | Rejected e => Async.result r = inl e /\ Async.final r = st
     end.
Proof.
  destruct st as [c ps]. run.
  answer (member_profiles_insert env (insert_payload p)) as [[[row|] [e|]]|e];
    done.
Qed.

(** C5, as stated, fails: [addProfile({})] passes no validation step; the
    insert goes out with no role and no name in its payload, and when the
    remote store accepts it the call returns the created profile and the
    set has grown. *)
Lemma addProfile_empty_input_reaches_remote :
  let env :=
    Scenario.with_profiles_insert
      (Fulfilled (mkResponse (Some Scenario.created_row) None)) Scenario.remote_ok in
  let r := addProfile empty_input env Scenario.no_profiles in
  Async.calls r
  = [MemberProfilesInsert
       {| ProfilePayload.account_id := Js.Undefined;
          ProfilePayload.full_name := Js.Undefined;
          ProfilePayload.role := Js.Undefined;
          ProfilePayload.email := Js.Null;
          ProfilePayload.phone := Js.Null;
          ProfilePayload.is_active := Js.Bool true |}]
  /\ Async.result r = inr (mapRowToProfile Scenario.created_row)
  /\ profiles (Async.final r) = [mapRowToProfile Scenario.created_row].
Proof. vm_compute. done. Qed.

End Profiles.

(** ** Training progress *)

Section Training.

Import TrainingProgress.
Import QArith_base.

(** [Math.max(0, p)] and [Math.min(100, x)] on numbers that are not NaN. *)
Lemma clamp_finite (q : Q) :
  clamp (Js.Fin q)
  = if Qle_bool 0 q then (if Qle_bool 100 q then Js.of_Z 100 else Js.Fin q)
    else Js.of_Z 0.
Proof.
  unfold clamp, Js.Math_max, Js.Math_min, Js.of_Z, Js.num_leb.
  change (inject_Z 0) with 0%Q.
  destruct (Qle_bool 0 q); [done|reflexivity].
Qed.

Lemma clamp_in_range (p : Js.number) :
  p <> Js.NaN ->
  exists q, clamp p = Js.Fin q /\ (0 <= q)%Q /\ (q <= 100)%Q.
Proof.
  intros Hp. destruct p as [| | |q]; [done| | |].
  - exists 0%Q. split; [reflexivity|]. split; done.
  - exists 100%Q. split; [reflexivity|]. split; done.
  - rewrite clamp_finite.
    destruct (Qle_bool 0 q) eqn:H0.
    + destruct (Qle_bool 100 q) eqn:H100.
      * exists 100%Q. split; [reflexivity|]. split; done.
      * exists q. split; [done|]. split; [by apply Qle_bool_iff|].
        apply Qlt_le_weak, Qnot_le_lt. rewrite <- Qle_bool_iff. congruence.
    + exists 0%Q. split; [reflexivity|]. split; done.
Qed.

(** The one request of [updateTrainingProgress], and what it throws. *)
Lemma updateTrainingProgress_run profileId trainingModuleId p isCompleted env :
  let payload :=
    {| TrainingPayload.completion_percentage := clamp p;
       TrainingPayload.is_completed := isCompleted;
       TrainingPayload.completed_at := if isCompleted then Some (now env) else None |} in
  let r := updateTrainingProgress profileId trainingModuleId p isCompleted env tt in
  Async.calls r = [TrainingProgressUpdate profileId trainingModuleId payload]
  /\ Async.result r
     = match training_progress_update env profileId trainingModuleId payload with
       | Fulfilled (mkResponse _ None) => inr tt
       | Fulfilled (mkResponse _ (Some e)) => inl (Js.RemoteError e)
       | Rejected e => inl e
       end.
Proof.
  destruct isCompleted; run;
    match goal with
    | |- context [training_progress_update ?e ?a ?b ?c] =>
        answer (training_progress_update e a b c) as [[[] [?|]]|?]; done
    end.
Qed.

(** The clamp, case by case. *)
Lemma clamp_cases (p : Js.number) :
  p <> Js.NaN ->
  exists c,
    clamp p = Js.Fin c
    /\ (0 <= c)%Q /\ (c <= 100)%Q
    /\ match p with
       | Js.Fin q =>
           ((q < 0)%Q -> c = 0%Q)
           /\ ((0 <= q)%Q -> (q < 100)%Q -> c = q)
           /\ ((100 <= q)%Q -> c = 100%Q)
       | Js.NegInf => c = 0%Q
       | Js.PosInf => c = 100%Q
       | Js.NaN => False
       end.
Proof.
  intros Hp. destruct p as [| | |q]; [done| | |].
  - exists 0%Q. by repeat split.
  - exists 100%Q. by repeat split.
  - rewrite clamp_finite.
    destruct (Qle_bool 0 q) eqn:H0.
    + apply Qle_bool_iff in H0.
      destruct (Qle_bool 100 q) eqn:H100.
      * apply Qle_bool_iff in H100. exists 100%Q.
        split; [reflexivity|]. split; [done|]. split; [done|].
        split; [|split]; try done.
        -- intros Hneg. exfalso. by apply (Qlt_not_le _ _ Hneg).
        -- intros _ Hlt. exfalso. by apply (Qlt_not_le _ _ Hlt).
      * assert (q < 100)%Q as Hlt.
        { apply Qnot_le_lt. rewrite <- Qle_bool_iff. congruence. }
        exists q. split; [done|]. split; [done|].
        split; [by apply Qlt_le_weak|].
        split; [|split]; try done.
        -- intros Hneg. exfalso. by apply (Qlt_not_le _ _ Hneg).
        -- intros Hge. exfalso. by apply (Qlt_not_le _ _ Hlt).
    + assert (q < 0)%Q as Hneg.
      { apply Qnot_le_lt. rewrite <- Qle_bool_iff. congruence. }
      exists 0%Q. split; [reflexivity|]. split; [done|]. split; [done|].
      split; [|split]; try done.
      * intros Hge. exfalso. by apply (Qlt_not_le _ _ Hneg).
      * intros Hge. exfalso. apply (Qlt_not_le _ _ Hneg).
        apply Qle_trans with (y := 100%Q); done.
Qed.

(** C7, as the code has it.  For every percentage that is not NaN — finite
    or infinite — [updateTrainingProgress] sends one update whose
    [completion_percentage] is the input clamped into [0,100]: a value in
    the range, which is 0 for an input below 0, the input itself for an
    input from 0 up to 100, and 100 for an input of 100 or more; so 150
    gives 100 and -10 gives 0.  The update carries the [isCompleted] flag,
    and a completion timestamp (the current time) exactly when the flag is
    set. *)
Theorem updateTrainingProgress_clamps profileId trainingModuleId p isCompleted env :
  p <> Js.NaN ->
  let r := updateTrainingProgress profileId trainingModuleId p isCompleted env tt in
  (exists c,
     Async.calls r
     = [TrainingProgressUpdate profileId trainingModuleId
          {| TrainingPayload.completion_percentage := Js.Fin c;
             TrainingPayload.is_completed := isCompleted;
             TrainingPayload.completed_at :=
               if isCompleted then Some (now env) else None |}]
     /\ (0 <= c)%Q /\ (c <= 100)%Q
     /\ match p with
        | Js.Fin q =>
            ((q < 0)%Q -> c = 0%Q)
            /\ ((0 <= q)%Q -> (q < 100)%Q -> c = q)
            /\ ((100 <= q)%Q -> c = 100%Q)
        | Js.NegInf => c = 0%Q
        | Js.PosInf => c = 100%Q
        | Js.NaN => False
        end)
  /\ Async.calls (updateTrainingProgress profileId trainingModuleId (Js.of_Z 150)
                    isCompleted env tt)
     = [TrainingProgressUpdate profileId trainingModuleId
          {| TrainingPayload.completion_percentage := Js.of_Z 100;
             TrainingPayload.is_completed := isCompleted;
             TrainingPayload.completed_at :=
               if isCompleted then Some (now env) else None |}]
  /\ Async.calls (updateTrainingProgress profileId trainingModuleId (Js.of_Z (-10))
                    isCompleted env tt)
     = [TrainingProgressUpdate profileId trainingModuleId
          {| TrainingPayload.completion_percentage := Js.of_Z 0;
             TrainingPayload.is_completed := isCompleted;
             TrainingPayload.completed_at :=
               if isCompleted then Some (now env) else None |}].
Proof.
  intros Hp. cbv zeta. split; [|split].
  - destruct (clamp_cases p Hp) as (c & Hc & Hlo & Hhi & Hcases).
    exists c. split; [|done].
    rewrite <- Hc. apply updateTrainingProgress_run.
  - apply (updateTrainingProgress_run profileId trainingModuleId (Js.of_Z 150)).
  - apply (updateTrainingProgress_run profileId trainingModuleId (Js.of_Z (-10))).
Qed.

Lemma updateTrainingProgress_clamps_witness :
  let r := updateTrainingProgress "p1" "training_mtm" (Js.Fin (40 # 1)) true
             Scenario.remote_ok tt in
  (exists c,
     Async.calls r
     = [TrainingProgressUpdate "p1" "training_mtm"
          {| TrainingPayload.completion_percentage := Js.Fin c;
             TrainingPayload.is_completed := true;
             TrainingPayload.completed_at := Some (now Scenario.remote_ok) |}]
     /\ (0 <= c)%Q /\ (c <= 100)%Q
     /\ (((40 # 1) < 0)%Q -> c = 0%Q)
        /\ ((0 <= 40 # 1)%Q -> ((40 # 1) < 100)%Q -> c = (40 # 1)%Q)
        /\ ((100 <= 40 # 1)%Q -> c = 100%Q))
  /\ Async.calls (updateTrainingProgress "p1" "training_mtm" (Js.of_Z 150)
                    true Scenario.remote_ok tt)
     = [TrainingProgressUpdate "p1" "training_mtm"
          {| TrainingPayload.completion_percentage := Js.of_Z 100;
             TrainingPayload.is_completed := true;
             TrainingPayload.completed_at := Some (now Scenario.remote_ok) |}]
  /\ Async.calls (updateTrainingProgress "p1" "training_mtm" (Js.of_Z (-10))
                    true Scenario.remote_ok tt)
     = [TrainingProgressUpdate "p1" "training_mtm"
          {| TrainingPayload.completion_percentage := Js.of_Z 0;
             TrainingPayload.is_completed := true;
             TrainingPayload.completed_at := Some (now Scenario.remote_ok) |}].
Proof.
  apply (updateTrainingProgress_clamps "p1" "training_mtm" (Js.Fin (40 # 1)) true
           Scenario.remote_ok).
  discriminate.
Defined.

(** A percentage inside the range goes out as it came in. *)
Example updateTrainingProgress_keeps_40 :
  Async.calls
    (updateTrainingProgress "p1" "training_mtm" (Js.of_Z 40) false Scenario.remote_ok tt)
  = [TrainingProgressUpdate "p1" "training_mtm"
       {| TrainingPayload.completion_percentage := Js.of_Z 40;
          TrainingPayload.is_completed := false;
          TrainingPayload.completed_at := None |}].
Proof. vm_compute. done. Qed.

(** C7, as stated, fails: for the percentage NaN the update carries NaN,
    which is not in [0,100]. *)
Lemma updateTrainingProgress_NaN_not_clamped :
  Async.calls
    (updateTrainingProgress "p1" "training_mtm" Js.NaN false Scenario.remote_ok tt)
  = [TrainingProgressUpdate "p1" "training_mtm"
       {| TrainingPayload.completion_percentage := Js.NaN;
          TrainingPayload.is_completed := false;
          TrainingPayload.completed_at := None |}].
Proof. vm_compute. done. Qed.

End Training.

(** ** Row mappers *)

Section Mappers.

(** C10.  [mapRowToAccount] gives an account for every row.  Its
    [subscriptionStatus] is ['inactive'] when the row's
    [subscription_status] is null or absent and the row's value otherwise,
    so it is never undefined or null; [pharmacyPhone], [updatedAt],
    [address1], [city], [state] and [zipcode] are null when the row's column
    is null or absent and the row's value otherwise, so they are never
    undefined. *)
Theorem mapRowToAccount_defaults (row : AccountRow.t) :
  let a := mapRowToAccount row in
  let or_null (v : Js.value) := if Js.nullish v then Js.Null else v in
  Account.subscriptionStatus a
  = (if Js.nullish (AccountRow.subscription_status row)
     then Js.Str "inactive" else AccountRow.subscription_status row)
  /\ Js.nullish (Account.subscriptionStatus a) = false
  /\ Account.pharmacyPhone a = or_null (AccountRow.pharmacy_phone row)
  /\ Account.updatedAt a = or_null (AccountRow.updated_at row)
  /\ Account.address1 a = or_null (AccountRow.address1 row)
  /\ Account.city a = or_null (AccountRow.city row)
  /\ Account.state a = or_null (AccountRow.state row)
  /\ Account.zipcode a = or_null (AccountRow.zipcode row)
  /\ Account.pharmacyPhone a <> Js.Undefined
  /\ Account.updatedAt a <> Js.Undefined
  /\ Account.address1 a <> Js.Undefined
  /\ Account.city a <> Js.Undefined
  /\ Account.state a <> Js.Undefined
  /\ Account.zipcode a <> Js.Undefined
  /\ Account.id a = AccountRow.id row
  /\ Account.email a = AccountRow.email row
  /\ Account.pharmacyName a = AccountRow.pharmacy_name row
  /\ Account.createdAt a = AccountRow.created_at row.
Proof.
  destruct row as [i e pn ph ss ca ua a1 c s z]. cbn. unfold Js.coalesce.
  repeat split; try done.
  - by destruct ss.
  - by destruct ph.
  - by destruct ua.
  - by destruct a1.
  - by destruct c.
  - by destruct s.
  - by destruct z.
Qed.

(** A row that has only its identifying columns. *)
Example mapRowToAccount_sparse_row :
  mapRowToAccount
    (AccountRow.mk (Js.Str "u1") (Js.Str "rx@example.com") (Js.Str "Main Street Pharmacy")
       Js.Undefined Js.Null (Js.Str "2024-01-01T00:00:00.000Z")
       Js.Undefined Js.Undefined Js.Null Js.Undefined Js.Undefined)
  = Account.mk (Js.Str "u1") (Js.Str "rx@example.com") (Js.Str "Main Street Pharmacy")
      Js.Null (Js.Str "inactive") (Js.Str "2024-01-01T00:00:00.000Z")
      Js.Null Js.Null Js.Null Js.Null Js.Null.
Proof. reflexivity. Qed.

End Mappers.

(** * Further properties of the state layer *)

(** As [run], for the operations of the wider environment too. *)
Ltac run_service :=
  lazy beta iota zeta delta
    [Service.try_catch Service.bind Service.await Service.lift Service.ask
     Service.throw_if_error Service.deref Service.console_error
     Service.set Service.get Service.throw Service.ret
     Service.result Service.final Service.calls
     Async.try_finally Async.try_catch Async.bind Async.await
     Async.throw_if_error Async.deref Async.console_error Async.Date_now
     Async.set Async.get Async.throw Async.ret
     Async.result Async.final Async.calls
     negb andb orb app map default mbind option_bind
     data error path catalogId catalog_id
     Js.truthy_opt
     ResourceBookmarkStore.bookmarkedResources ResourceBookmarkStore.loading
     ResourceBookmarkStore.set_bookmarkedResources
     ResourceBookmarkStore.set_loading
     ResourceBookmarkStore.has ResourceBookmarkStore.isBookmarked
     ResourceBookmarkStore.toggleBookmark ResourceBookmarkStore.loadBookmarks
     ResourceBookmarkStore.clearBookmarks
     ResourceViews.handleBookmarkToggle
     AuthStore.isInitialized AuthStore.session AuthStore.user AuthStore.account
     AuthStore.logout AuthStore.checkSession AuthStore.updateAccount
     Auth.session Auth.user Auth.id
     sign_in_session sign_in_user Login.login
     ProfileStore.currentProfile ProfileStore.profiles ProfileStore.addProfile
     ProfileDirectory.store ProfileDirectory.sessionStorage
     ProfileDirectory.getItem ProfileDirectory.setItem ProfileDirectory.removeItem
     ProfileDirectory.loadSavedProfile ProfileDirectory.saveProfile
     ProfileDirectory.set_store ProfileDirectory.create
     ProfileDirectory.loadProfiles ProfileDirectory.setCurrentProfile
     ProfileDirectory.refreshCurrentProfile
     DashboardService.getTrainingProgress DashboardService.getModuleProgress
     DashboardService.addBookmark DashboardService.removeBookmark
     DashboardService.isBookmarked
     TrainingPayload.completion_percentage TrainingPayload.is_completed
     TrainingPayload.completed_at
     TrainingProgress.updateTrainingProgress
     TrainingProgress.completeTrainingModule].

Tactic Notation "settle" constr(x) "as" simple_intropattern(pat) :=
  destruct x as pat; run_service.
Tactic Notation "settle" constr(x) "as" simple_intropattern(pat) "eqn" ":" ident(H) :=
  destruct x as pat eqn:H; run_service.

(** ** More on bookmarks *)

Section MoreBookmarks.

Import ResourceBookmarkStore.

Implicit Types (st : State) (env : Remote) (resource : StorageFileItem)
  (m : gmap string string).

(** Removal: the cached identifier is the one sent, and nothing is looked
    up. *)
Lemma toggle_remove_run profileId resource env st id :
  bookmarkedResources st !! path resource = Some id ->
  Js.truthy_string id = true ->
  toggleBookmark profileId resource env st
  = match bookmarks_delete env profileId id with
    | Fulfilled _ =>
        Async.mkRun (inr tt)
          (set_bookmarkedResources (delete (path resource) (bookmarkedResources st)) st)
          [BookmarksDelete profileId id]
    | Rejected e => Async.mkRun (inl e) st [BookmarksDelete profileId id]
    end.
Proof.
  destruct st as [m l], resource as [p cid]. run. intros Hm Hid.
  rewrite Hm. run. rewrite Hid.
  destruct (match cid with Some s => Js.truthy_string s | None => false end); run;
    by destruct (bookmarks_delete env profileId id).
Qed.

(** Addition with the identifier [id] resolved. *)
Lemma toggle_insert_run profileId p env m l id :
  Async.try_catch
    (Async.bind
       (Async.await (BookmarksInsert profileId "file" id)
          (fun env => bookmarks_insert env profileId "file" id))
       (fun _ => Async.set (set_bookmarkedResources (<[p:=id]> m))))
    (fun error => Async.bind Async.console_error (fun _ => Async.throw error))
    env (mkState m l)
  = match bookmarks_insert env profileId "file" id with
    | Fulfilled _ =>
        Async.mkRun (inr tt) (mkState (<[p:=id]> m) l) [BookmarksInsert profileId "file" id]
    | Rejected e => Async.mkRun (inl e) (mkState m l) [BookmarksInsert profileId "file" id]
    end.
Proof. run. by destruct (bookmarks_insert env profileId "file" id). Qed.

(** Addition when the resource carries its identifier. *)
Lemma toggle_add_known_run profileId resource env st id :
  bookmarkedResources st !! path resource = None ->
  catalogId resource = Some id ->
  Js.truthy_string id = true ->
  toggleBookmark profileId resource env st
  = match bookmarks_insert env profileId "file" id with
    | Fulfilled _ =>
        Async.mkRun (inr tt)
          (set_bookmarkedResources (<[path resource := id]> (bookmarkedResources st)) st)
          [BookmarksInsert profileId "file" id]
    | Rejected e => Async.mkRun (inl e) st [BookmarksInsert profileId "file" id]
    end.
Proof.
  destruct st as [m l], resource as [p cid]. run. intros Hm -> Hid.
  rewrite Hm. run. rewrite Hid. run. rewrite Hid. run.
  by destruct (bookmarks_insert env profileId "file" id).
Qed.

(** Addition when it does not: the catalog is asked first. *)
Lemma toggle_add_lookup_run profileId resource env st :
  bookmarkedResources st !! path resource = None ->
  Js.truthy_opt (catalogId resource) = false ->
  toggleBookmark profileId resource env st
  = let lookup := CatalogSelectId (path resource) "clinicalrxqfiles" in
    match catalog_select_id env (path resource) "clinicalrxqfiles" with
    | Fulfilled (mkResponse (Some row) _) =>
        if Js.truthy_string (catalog_id row) then
          match bookmarks_insert env profileId "file" (catalog_id row) with
          | Fulfilled _ =>
              Async.mkRun (inr tt)
                (set_bookmarkedResources
                   (<[path resource := catalog_id row]> (bookmarkedResources st)) st)
                [lookup; BookmarksInsert profileId "file" (catalog_id row)]
          | Rejected e =>
              Async.mkRun (inl e) st
                [lookup; BookmarksInsert profileId "file" (catalog_id row)]
          end
        else Async.mkRun (inl (Js.Error "Resource not found in catalog")) st [lookup]
    | Fulfilled (mkResponse None _) =>
        Async.mkRun (inl (Js.Error "Resource not found in catalog")) st [lookup]
    | Rejected e => Async.mkRun (inl e) st [lookup]
    end.
Proof.
  destruct st as [m l], resource as [p cid]. run. intros Hm Hcid.
  rewrite Hm. run. rewrite Hcid. run.
  destruct (catalog_select_id env p "clinicalrxqfiles") as [[[[rid]|] ?]|]; run;
    try done.
  destruct (Js.truthy_string rid) eqn:Hrid; run; [|done]. rewrite Hrid. run.
  by destruct (bookmarks_insert env profileId "file" rid).
Qed.

(** A cached entry without an identifier: the call gives up quietly. *)
Lemma toggle_stuck_run profileId resource env st id :
  bookmarkedResources st !! path resource = Some id ->
  Js.truthy_string id = false ->
  toggleBookmark profileId resource env st = Async.mkRun (inr tt) st [].
Proof.
  destruct st as [m l], resource as [p cid]. run. intros Hm Hid.
  rewrite Hm. run. rewrite Hid.
  by destruct (match cid with Some s => Js.truthy_string s | None => false end).
Qed.

(** The store after a call is the store before it, or that store with the
    resource's path removed, or with the path mapped to some identifier. *)
Lemma toggle_final_cases profileId resource env st :
  let st' := Async.final (toggleBookmark profileId resource env st) in
  st' = st
  \/ st' = set_bookmarkedResources (delete (path resource) (bookmarkedResources st)) st
  \/ exists id,
       st' = set_bookmarkedResources
               (<[path resource := id]> (bookmarkedResources st)) st.
Proof.
  cbv zeta.
  destruct (bookmarkedResources st !! path resource) as [id|] eqn:Hm.
  - destruct (Js.truthy_string id) eqn:Hid.
    + rewrite (toggle_remove_run _ _ _ _ _ Hm Hid).
      destruct (bookmarks_delete env profileId id); cbn; auto.
    + rewrite (toggle_stuck_run _ _ _ _ _ Hm Hid). cbn. auto.
  - destruct (known_catalogId (catalogId resource)) as [(id & Hc & Hid)|Hc].
    + rewrite (toggle_add_known_run _ _ _ _ _ Hm Hc Hid).
      destruct (bookmarks_insert env profileId "file" id); cbn; eauto.
    + assert (Js.truthy_opt (catalogId resource) = false) as Hf
        by (destruct Hc as [->|(? & -> & ?)]; done).
      rewrite (toggle_add_lookup_run _ _ _ _ Hm Hf). cbv zeta.
      destruct (catalog_select_id env (path resource) "clinicalrxqfiles")
        as [[[row|] ?]|]; cbn; auto.
      destruct (Js.truthy_string (catalog_id row)); cbn; auto.
      destruct (bookmarks_insert env profileId "file" (catalog_id row)); cbn; eauto.
Qed.

(** X1.  Whatever a call to [toggleBookmark] does — return or throw — the
    [loading] flag and the entry of every path other than the resource's
    are as before the call. *)
Theorem toggleBookmark_frame profileId resource env st :
  let r := toggleBookmark profileId resource env st in
  loading (Async.final r) = loading st
  /\ forall k, k <> path resource ->
       bookmarkedResources (Async.final r) !! k = bookmarkedResources st !! k.
Proof.
  cbv zeta.
  destruct (toggle_final_cases profileId resource env st) as [->|[->|[id ->]]];
    (split; [done|]); intros k Hk; cbn.
  - done.
  - by rewrite lookup_delete_ne.
  - by rewrite lookup_insert_ne.
Qed.

(** X2.  When the path is bookmarked (with a non-empty cached identifier),
    [toggleBookmark] sends exactly one request, the delete keyed by the
    profile and the cached identifier — it neither reads
    [resource.catalogId] nor asks the catalog — and when the delete
    promise fulfils it returns with the path removed from the cache. *)
Theorem toggleBookmark_removes_by_cached_id profileId resource env st id resp :
  bookmarkedResources st !! path resource = Some id ->
  Js.truthy_string id = true ->
  bookmarks_delete env profileId id = Fulfilled resp ->
  let r := toggleBookmark profileId resource env st in
  Async.result r = inr tt
  /\ Async.calls r = [BookmarksDelete profileId id]
  /\ bookmarkedResources (Async.final r)
     = delete (path resource) (bookmarkedResources st)
  /\ isBookmarked (path resource) (Async.final r) = false.
Proof.
  intros Hm Hid Hdel. cbv zeta.
  rewrite (toggle_remove_run _ _ _ _ _ Hm Hid), Hdel. cbn.
  repeat split. unfold isBookmarked, has. cbn. by rewrite lookup_delete_eq.
Qed.

Lemma toggleBookmark_removes_by_cached_id_witness :
  let stale := {| path := "mtm/form1.pdf"; catalogId := Some "C9" |} in
  let r := toggleBookmark "alice" stale Scenario.remote_ok Examples.form1_bookmarked in
  Async.result r = inr tt
  /\ Async.calls r = [BookmarksDelete "alice" "C1"]
  /\ bookmarkedResources (Async.final r)
     = delete "mtm/form1.pdf" (bookmarkedResources Examples.form1_bookmarked)
  /\ isBookmarked "mtm/form1.pdf" (Async.final r) = false.
Proof.
  apply (toggleBookmark_removes_by_cached_id "alice"
           {| path := "mtm/form1.pdf"; catalogId := Some "C9" |}
           Scenario.remote_ok Examples.form1_bookmarked "C1" (mkResponse tt None));
    reflexivity.
Defined.

(** X3.  When the path is not bookmarked and [toggleBookmark] returns, the
    path is cached under a non-empty identifier, which is also the one the
    insert carried: the resource's own [catalogId] when it has one, with the
    insert as the only request, and otherwise the identifier the catalog
    lookup returned, with the lookup sent before the insert. *)
Theorem toggleBookmark_adds_resolved_id profileId resource env st :
  isBookmarked (path resource) st = false ->
  let r := toggleBookmark profileId resource env st in
  Async.result r = inr tt ->
  exists id,
    Js.truthy_string id = true
    /\ Async.final r
       = set_bookmarkedResources (<[path resource := id]> (bookmarkedResources st)) st
    /\ (if Js.truthy_opt (catalogId resource)
        then catalogId resource = Some id
             /\ Async.calls r = [BookmarksInsert profileId "file" id]
        else (exists resp,
                 catalog_select_id env (path resource) "clinicalrxqfiles"
                 = Fulfilled resp
                 /\ catalog_id <$> data resp = Some id)
             /\ Async.calls r
                = [CatalogSelectId (path resource) "clinicalrxqfiles";
                   BookmarksInsert profileId "file" id]).
Proof.
  intros Hno. cbv zeta.
  assert (bookmarkedResources st !! path resource = None) as Hm.
  { unfold isBookmarked, has in Hno.
    by destruct (bookmarkedResources st !! path resource). }
  destruct (known_catalogId (catalogId resource)) as [(id & Hc & Hid)|Hc].
  - rewrite (toggle_add_known_run _ _ _ _ _ Hm Hc Hid).
    destruct (bookmarks_insert env profileId "file" id); cbn; [|done].
    intros _. exists id. rewrite Hc. cbn. by rewrite Hid.
  - assert (Js.truthy_opt (catalogId resource) = false) as Hf
      by (destruct Hc as [->|(? & -> & ?)]; done).
    rewrite (toggle_add_lookup_run _ _ _ _ Hm Hf), Hf. cbv zeta.
    destruct (catalog_select_id env (path resource) "clinicalrxqfiles")
      as [[[row|] err]|]; cbn; try done.
    destruct (Js.truthy_string (catalog_id row)) eqn:Hrow; cbn; [|done].
    destruct (bookmarks_insert env profileId "file" (catalog_id row)); cbn; [|done].
    intros _. exists (catalog_id row). eauto 10.
Qed.

Lemma toggleBookmark_adds_resolved_id_witness :
  let r := toggleBookmark "alice" Scenario.form1 Scenario.remote_ok init in
  exists id,
    Js.truthy_string id = true
    /\ Async.final r = set_bookmarkedResources (<["mtm/form1.pdf" := id]> ∅) init
    /\ (Some "C1" = Some id
        /\ Async.calls r = [BookmarksInsert "alice" "file" id]).
Proof.
  apply (toggleBookmark_adds_resolved_id "alice" Scenario.form1 Scenario.remote_ok init);
    reflexivity.
Defined.

(** X4.  Bookmarking a resource that was not bookmarked and toggling it
    again, both calls returning, gives back the store exactly as it was:
    the same cache, entry for entry. *)
Theorem toggleBookmark_twice_restores profileId resource env1 env2 st :
  isBookmarked (path resource) st = false ->
  let r1 := toggleBookmark profileId resource env1 st in
  let r2 := toggleBookmark profileId resource env2 (Async.final r1) in
  Async.result r1 = inr tt ->
  Async.result r2 = inr tt ->
  Async.final r2 = st.
Proof.
  intros Hno. cbv zeta. intros H1.
  assert (bookmarkedResources st !! path resource = None) as Hm.
  { unfold isBookmarked, has in Hno.
    by destruct (bookmarkedResources st !! path resource). }
  assert (exists id, Js.truthy_string id = true
            /\ Async.final (toggleBookmark profileId resource env1 st)
               = set_bookmarkedResources
                   (<[path resource := id]> (bookmarkedResources st)) st)
    as (id & Hid & ->).
  { destruct (toggle_final_cases profileId resource env1 st) as [Hs|[Hs|[id Hs]]].
    - pose proof (toggleBookmark_step profileId resource env1 st
                    (not_bookmarked_cache_ok _ _ Hno)) as Hstep.
      cbv zeta in Hstep. rewrite H1, Hs in Hstep. destruct Hstep as [Hflip _].
      rewrite Hno in Hflip. done.
    - pose proof (toggleBookmark_step profileId resource env1 st
                    (not_bookmarked_cache_ok _ _ Hno)) as Hstep.
      cbv zeta in Hstep. rewrite H1, Hs in Hstep. destruct Hstep as [Hflip _].
      rewrite Hno in Hflip. unfold isBookmarked, has in Hflip.
      cbn [bookmarkedResources set_bookmarkedResources] in Hflip.
      by rewrite lookup_delete_eq in Hflip.
    - pose proof (toggleBookmark_step profileId resource env1 st
                    (not_bookmarked_cache_ok _ _ Hno)) as Hstep.
      cbv zeta in Hstep. rewrite H1, Hs in Hstep. destruct Hstep as [_ Hok].
      exists id. split; [|done]. apply Hok. cbn. by rewrite lookup_insert_eq. }
  rewrite (toggle_remove_run profileId resource env2 _ id);
    [|cbn; by rewrite lookup_insert_eq|done].
  destruct (bookmarks_delete env2 profileId id); cbn; [|done].
  intros _. destruct st as [m l]. cbn in *. unfold set_bookmarkedResources. cbn.
  f_equal. by apply delete_insert_id.
Qed.

Lemma toggleBookmark_twice_restores_witness :
  Async.final
    (toggleBookmark "alice" Scenario.form1 Scenario.remote_ok
       (Async.final
          (toggleBookmark "alice" Scenario.form1 Scenario.remote_ok
             Examples.form1_other)))
  = Examples.form1_other.
Proof.
  apply (toggleBookmark_twice_restores "alice" Scenario.form1
           Scenario.remote_ok Scenario.remote_ok Examples.form1_other);
    reflexivity.
Defined.

(** X5.  A path cached under an empty identifier cannot be toggled off:
    [toggleBookmark] returns without throwing, sends no request, and the
    store — the bookmark included — is as before. *)
Theorem toggleBookmark_stuck_on_empty_id profileId resource env st id :
  bookmarkedResources st !! path resource = Some id ->
  Js.truthy_string id = false ->
  let r := toggleBookmark profileId resource env st in
  Async.result r = inr tt
  /\ Async.calls r = []
  /\ Async.final r = st
  /\ isBookmarked (path resource) (Async.final r) = true.
Proof.
  intros Hm Hid. cbv zeta. rewrite (toggle_stuck_run _ _ _ _ _ Hm Hid). cbn.
  repeat split. unfold isBookmarked, has. by rewrite Hm.
Qed.

Lemma toggleBookmark_stuck_on_empty_id_witness :
  let st := set_bookmarkedResources {[ "mtm/form1.pdf" := "" ]} init in
  let r := toggleBookmark "alice" Scenario.form1 Scenario.remote_ok st in
  Async.result r = inr tt
  /\ Async.calls r = []
  /\ Async.final r = st
  /\ isBookmarked "mtm/form1.pdf" (Async.final r) = true.
Proof.
  apply (toggleBookmark_stuck_on_empty_id "alice" Scenario.form1 Scenario.remote_ok
           (set_bookmarkedResources {[ "mtm/form1.pdf" := "" ]} init) "");
    reflexivity.
Defined.

End MoreBookmarks.

(** ** More on loading bookmarks *)

Section MoreLoading.

Import ResourceBookmarkStore.

Implicit Types (st : State) (env : Remote) (m : gmap string string).

(** The whole run of [loadBookmarks]. *)
Lemma loadBookmarks_run profileId env st :
  loadBookmarks profileId env st
  = Async.mkRun (inr tt)
      {| bookmarkedResources :=
           match bookmarks_select_joined env profileId "file" with
           | Fulfilled (mkResponse rows None) => build_resources (default [] rows)
           | _ => bookmarkedResources st
           end;
         loading := false |}
      [BookmarksSelectJoined profileId "file"].
Proof.
  destruct st as [m l]. run.
  answer (bookmarks_select_joined env profileId "file") as [[rows [e|]]|e]; done.
Qed.

(** X6.  [loadBookmarks] never throws, sends exactly the joined select, and
    always turns [loading] off.  The cache afterwards is the map built from
    the returned rows when the select fulfilled without error, and is
    untouched when the select returned an error or its promise rejected. *)
Theorem loadBookmarks_never_throws profileId env st :
  let r := loadBookmarks profileId env st in
  Async.result r = inr tt
  /\ Async.calls r = [BookmarksSelectJoined profileId "file"]
  /\ loading (Async.final r) = false
  /\ bookmarkedResources (Async.final r)
     = match bookmarks_select_joined env profileId "file" with
       | Fulfilled (mkResponse rows None) => build_resources (default [] rows)
       | _ => bookmarkedResources st
       end.
Proof. cbv zeta. by rewrite loadBookmarks_run. Qed.

(** X7.  [clearBookmarks] sends nothing and leaves no path bookmarked; a
    [loadBookmarks] run after it leaves in the cache only what the select
    returned — nothing of the earlier cache survives, and after a failed
    load the cache is empty. *)
Theorem clearBookmarks_then_load profileId env st :
  let cleared := clearBookmarks env st in
  let r := loadBookmarks profileId env (Async.final cleared) in
  Async.result cleared = inr tt
  /\ Async.calls cleared = []
  /\ (forall k, isBookmarked k (Async.final cleared) = false)
  /\ bookmarkedResources (Async.final r)
     = match bookmarks_select_joined env profileId "file" with
       | Fulfilled (mkResponse rows None) => build_resources (default [] rows)
       | _ => ∅
       end.
Proof.
  cbv zeta. rewrite loadBookmarks_run. destruct st as [m l]. cbn.
  repeat split; try done.
Qed.

(** Normalising leaves no leading slash, and is idempotent. *)
Lemma strip_leading_slashes_no_slash (s rest : string) :
  Js.strip_leading_slashes s <> String "/"%char rest.
Proof.
  induction s as [|c s IH]; cbn; [done|].
  destruct (Ascii.ascii_dec c "/"%char) as [->|Hc]; [done|].
  assert (forall t, match c with
                    | "/"%char => t
                    | _ => String c s
                    end = String c s) as ->.
  { intros t. destruct c as [[] [] [] [] [] [] [] []]; try done. }
  congruence.
Qed.

Lemma strip_leading_slashes_idempotent (s : string) :
  Js.strip_leading_slashes (Js.strip_leading_slashes s) = Js.strip_leading_slashes s.
Proof.
  induction s as [|c s IH]; cbn; [done|].
  destruct c as [[] [] [] [] [] [] [] []]; try done.
Qed.

(** X8.  After a [loadBookmarks] whose select fulfilled without error, no
    cached path starts with a slash: [isBookmarked] is false of every path
    with a leading slash, and every cached path is its own normal form. *)
Theorem loadBookmarks_keys_normalised profileId env st resp :
  bookmarks_select_joined env profileId "file" = Fulfilled resp ->
  error resp = None ->
  let r := loadBookmarks profileId env st in
  (forall rest, isBookmarked (String "/"%char rest) (Async.final r) = false)
  /\ (forall k, isBookmarked k (Async.final r) = true ->
                Js.strip_leading_slashes k = k).
Proof.
  intros Hsel Herr. cbv zeta. rewrite loadBookmarks_run, Hsel.
  destruct resp as [rows err]. cbn in Herr. subst err.
  cbn [Async.final bookmarkedResources].
  assert (Hkey : forall k id,
            build_resources (default [] rows) !! k = Some id ->
            exists fp, Js.strip_leading_slashes fp = k).
  { intros k id Hk. apply fold_rows_origin in Hk as [Hk|(row & fp & _ & _ & Hp & _)].
    - by rewrite lookup_empty in Hk.
    - eauto. }
  split.
  - intros rest. unfold isBookmarked, has. cbn.
    destruct (build_resources (default [] rows) !! String "/"%char rest) eqn:Hk; [|done].
    apply Hkey in Hk as [fp Hfp]. by apply strip_leading_slashes_no_slash in Hfp.
  - intros k Hk. apply isBookmarked_lookup in Hk as [id Hk]. cbn in Hk.
    apply Hkey in Hk as [fp <-]. apply strip_leading_slashes_idempotent.
Qed.

Lemma loadBookmarks_keys_normalised_witness :
  let rows := [Scenario.slashed_row; Scenario.orphan_row; Scenario.plain_row] in
  let env :=
    Scenario.with_bookmarks_select (Fulfilled (mkResponse (Some rows) None))
      Scenario.remote_ok in
  let r := loadBookmarks "alice" env init in
  (forall rest, isBookmarked (String "/"%char rest) (Async.final r) = false)
  /\ (forall k, isBookmarked k (Async.final r) = true ->
                Js.strip_leading_slashes k = k).
Proof.
  exact (loadBookmarks_keys_normalised "alice"
           (Scenario.with_bookmarks_select
              (Fulfilled
                 (mkResponse
                    (Some [Scenario.slashed_row; Scenario.orphan_row; Scenario.plain_row])
                    None))
              Scenario.remote_ok)
           init
           (mkResponse
              (Some [Scenario.slashed_row; Scenario.orphan_row; Scenario.plain_row])
              None)
           eq_refl eq_refl).
Defined.

(** Rows that do not touch key [k] leave its entry alone. *)
Lemma fold_rows_untouched rows : forall m k,
  (forall row fp, row ∈ rows -> intact row fp -> Js.strip_leading_slashes fp <> k) ->
  fold_left add_bookmark_row rows m !! k = m !! k.
Proof.
  induction rows as [|row rows IH]; intros m k Hother; cbn; [done|].
  rewrite IH.
  - destruct (add_bookmark_row_cases m row) as [->|[fp Hfp]]; [done|].
    rewrite (add_bookmark_row_intact _ _ _ Hfp), lookup_insert_ne; [done|].
    apply (Hother row fp); [apply elem_of_cons; auto|done].
  - intros row' fp' Hin. apply Hother, elem_of_cons. auto.
Qed.

(** X9.  When several returned rows normalise to the same path, the cache
    keeps the [resource_id] of the last of them: a row with an intact join
    decides the entry of its normalised path if no later row has that path. *)
Theorem loadBookmarks_last_row_wins rows1 row rows2 fp :
  intact row fp ->
  (forall row' fp', row' ∈ rows2 -> intact row' fp' ->
     Js.strip_leading_slashes fp' <> Js.strip_leading_slashes fp) ->
  build_resources (rows1 ++ row :: rows2) !! Js.strip_leading_slashes fp
  = Some (resource_id row).
Proof.
  intros Hfp Hlater. unfold build_resources.
  rewrite fold_left_app. cbn.
  rewrite (fold_rows_untouched rows2 _ _ Hlater).
  by rewrite (add_bookmark_row_intact _ _ _ Hfp), lookup_insert_eq.
Qed.

Lemma loadBookmarks_last_row_wins_witness :
  build_resources
    ([Scenario.plain_row;
      {| resource_id := "C0";
         storage_files_catalog :=
           Some {| join_id := "C0"; file_path := Some "mtm/form1.pdf" |} |}]
       ++ Scenario.slashed_row :: [Scenario.orphan_row])
    !! Js.strip_leading_slashes "/mtm/form1.pdf"
  = Some (resource_id Scenario.slashed_row).
Proof.
  apply (loadBookmarks_last_row_wins
           [Scenario.plain_row;
            {| resource_id := "C0";
               storage_files_catalog :=
                 Some {| join_id := "C0"; file_path := Some "mtm/form1.pdf" |} |}]
           Scenario.slashed_row [Scenario.orphan_row] "/mtm/form1.pdf").
  - exists {| join_id := "C1"; file_path := Some "/mtm/form1.pdf" |}. by repeat split.
  - intros row' fp' Hin (catalog & Hc & _). apply list_elem_of_singleton in Hin.
    subst row'. discriminate Hc.
Defined.

(** X10.  The bookmark button of a resource card never throws.  Without an
    active profile id it sends nothing and leaves the store alone; with one
    it sends what [toggleBookmark] sends and leaves the store as
    [toggleBookmark] leaves it, swallowing whatever that call throws. *)
Theorem handleBookmarkToggle_swallows currentProfileId item env st :
  let r := ResourceViews.handleBookmarkToggle currentProfileId item env st in
  Async.result r = inr tt
  /\ match currentProfileId with
     | Some id =>
         if Js.truthy_string id
         then Async.final r = Async.final (toggleBookmark id item env st)
              /\ Async.calls r = Async.calls (toggleBookmark id item env st)
         else Async.final r = st /\ Async.calls r = []
     | None => Async.final r = st /\ Async.calls r = []
     end.
Proof.
  cbv zeta. unfold ResourceViews.handleBookmarkToggle.
  destruct currentProfileId as [id|]; cbn [Js.truthy_opt negb]; [|done].
  destruct (Js.truthy_string id); cbn [negb]; [|done].
  unfold Async.try_catch, Async.console_error, Async.ret.
  destruct (toggleBookmark id item env st) as [[e|[]] st' rqs]; cbn; [|done].
  by rewrite app_nil_r.
Qed.

End MoreLoading.

(** ** More on the session manager *)

Section MoreSession.

Import AuthStore.

Implicit Types (st : State) (env : Remote).

(** The whole run of [checkSession], by what the remote side answers. *)
Lemma checkSession_run env st :
  checkSession env st
  = match auth_get_session env with
    | Fulfilled (mkResponse (Some sd) _) =>
        match Auth.session sd ≫= Auth.user with
        | None =>
            Async.mkRun (inr tt)
              {| isInitialized := true; session := Auth.session sd;
                 user := None; account := None |}
              [AuthGetSession]
        | Some u =>
            Async.mkRun (inr tt)
              {| isInitialized := true; session := Auth.session sd;
                 user := Some u;
                 account :=
                   match accounts_select env (Auth.id u) with
                   | Fulfilled (mkResponse (Some row) None) =>
                       Some (mapRowToAccount row)
                   | _ => account st
                   end |}
              [AuthGetSession; AccountsSelect (Auth.id u)]
        end
    | _ =>
        Async.mkRun (inr tt)
          {| isInitialized := true; session := session st;
             user := user st; account := account st |}
          [AuthGetSession]
    end.
Proof.
  destruct st as [i s u a]. run.
  answer (auth_get_session env) as [[[[[[[[uid]|]]|]]|] err]|e]; try done.
  answer (accounts_select env uid) as [[[row|] [err'|]]|e]; done.
Qed.

(** X11.  [checkSession] is idempotent: run again against the same remote
    side, it leaves the store as its first run left it. *)
Theorem checkSession_idempotent env st :
  Async.final (checkSession env (Async.final (checkSession env st)))
  = Async.final (checkSession env st).
Proof.
  rewrite (checkSession_run env (Async.final (checkSession env st))).
  rewrite (checkSession_run env st).
  destruct (auth_get_session env) as [[[[sess]|] err]|e];
    cbn [Auth.session Async.final]; try done.
  destruct (sess ≫= Auth.user) as [u|]; cbn [Async.final account]; [|done].
  by destruct (accounts_select env (Auth.id u)) as [[[row|] [err'|]]|e].
Qed.

(** X12.  When the remote side has no session (or a session without a
    user), [checkSession] asks for the session and nothing else, and leaves
    the store initialized with the session as read and with no user and no
    account. *)
Theorem checkSession_anonymous env st sess err :
  auth_get_session env
  = Fulfilled (mkResponse (Some {| Auth.session := sess |}) err) ->
  sess ≫= Auth.user = None ->
  let r := checkSession env st in
  Async.calls r = [AuthGetSession]
  /\ Async.final r
     = {| isInitialized := true; session := sess; user := None; account := None |}.
Proof.
  destruct st as [i s u a]. run. intros Hs Hu. rewrite Hs. run.
  destruct sess as [[[?|]]|]; run; done.
Qed.

Lemma checkSession_anonymous_witness :
  let r := checkSession Scenario.remote_ok Scenario.signed_in in
  Async.calls r = [AuthGetSession]
  /\ Async.final r
     = {| isInitialized := true; session := None; user := None; account := None |}.
Proof.
  apply (checkSession_anonymous Scenario.remote_ok Scenario.signed_in None None);
    reflexivity.
Defined.

(** X13.  When the session has a user but the account fetch fails — an
    error in the result, a missing row, or a rejected promise —
    [checkSession] still takes the session and the user from the remote
    side and marks the store initialized, and it keeps the account the
    store held before the call (it does not reset it to null). *)
Theorem checkSession_fetch_failure_keeps_account env st u err :
  auth_get_session env
  = Fulfilled (mkResponse (Some {| Auth.session := Some {| Auth.user := Some u |} |}) err) ->
  match accounts_select env (Auth.id u) with
  | Fulfilled (mkResponse (Some _) None) => False
  | _ => True
  end ->
  let r := checkSession env st in
  Async.result r = inr tt
  /\ Async.calls r = [AuthGetSession; AccountsSelect (Auth.id u)]
  /\ Async.final r
     = {| isInitialized := true;
          session := Some {| Auth.user := Some u |};
          user := Some u;
          account := account st |}.
Proof.
  destruct st as [i s u0 a], u as [uid]. run. intros Hs. rewrite Hs. run.
  answer (accounts_select env uid) as [[[row|] [err'|]]|e]; done.
Qed.

Lemma checkSession_fetch_failure_keeps_account_witness :
  let r := checkSession Examples.remote_account_down Scenario.signed_in in
  Async.result r = inr tt
  /\ Async.calls r = [AuthGetSession; AccountsSelect (Js.Str "u1")]
  /\ Async.final r
     = {| isInitialized := true;
          session := Some {| Auth.user := Some Scenario.owner |};
          user := Some Scenario.owner;
          account := Some (mapRowToAccount Scenario.account_row) |}.
Proof.
  apply (checkSession_fetch_failure_keeps_account Examples.remote_account_down
           Scenario.signed_in Scenario.owner None).
  - reflexivity.
  - exact I.
Defined.

(** X14.  When the session has a user and the account fetch returns the
    row without error, [checkSession] leaves the store initialized with
    that session, that user, and the account mapped from the row. *)
Theorem checkSession_authenticated env st u row err :
  auth_get_session env
  = Fulfilled (mkResponse (Some {| Auth.session := Some {| Auth.user := Some u |} |}) err) ->
  accounts_select env (Auth.id u) = Fulfilled (mkResponse (Some row) None) ->
  let r := checkSession env st in
  Async.result r = inr tt
  /\ Async.calls r = [AuthGetSession; AccountsSelect (Auth.id u)]
  /\ Async.final r
     = {| isInitialized := true;
          session := Some {| Auth.user := Some u |};
          user := Some u;
          account := Some (mapRowToAccount row) |}.
Proof.
  destruct st as [i s u0 a], u as [uid]. run. intros Hs Ha.
  rewrite Hs. run. by rewrite Ha.
Qed.

Lemma checkSession_authenticated_witness :
  let r := checkSession Examples.remote_signed_in init in
  Async.result r = inr tt
  /\ Async.calls r = [AuthGetSession; AccountsSelect (Js.Str "u1")]
  /\ Async.final r = Scenario.signed_in.
Proof.
  apply (checkSession_authenticated Examples.remote_signed_in init
           Scenario.owner Scenario.account_row None);
    reflexivity.
Defined.

(** Every run of [checkSession] returns, with the store initialized. *)
Lemma checkSession_returns env st :
  Async.result (checkSession env st) = inr tt
  /\ isInitialized (Async.final (checkSession env st)) = true.
Proof.
  destruct st as [i s u a]. run.
  answer (auth_get_session env) as [[[[[[[[uid]|]]|]]|] err]|e]; try done.
  answer (accounts_select env uid) as [[[row|] [err'|]]|e]; done.
Qed.

(** [updateAccount] never touches [isInitialized], the session or the
    user, whatever the remote side answers. *)
Lemma updateAccount_frame patch env st :
  let st' := Async.final (updateAccount patch env st) in
  isInitialized st' = isInitialized st
  /\ session st' = session st
  /\ user st' = user st.
Proof.
  destruct st as [i s [[uid]|] a]; run; [|done].
  answer (accounts_update env uid (update_payload patch (now env)))
    as [[[row|] [e|]]|e]; done.
Qed.

End MoreSession.

Section MoreLogin.

Import AuthStore.

Implicit Types (st : State) (env : Service.Env).

(** X15.  When the sign-in fails — its result carries an error, its promise
    rejects, or it has no data — [login] throws exactly that failure, the
    sign-in is the only request sent (the session is not checked), and the
    store is as before. *)
Theorem login_failure email password env st :
  let r := Login.login email password env st in
  match Service.auth_sign_in_with_password env email password with
  | Fulfilled (mkResponse (Some _) None) => True
  | Fulfilled (mkResponse _ (Some e)) =>
      Service.result r = inl (Js.RemoteError e)
      /\ Service.final r = st
      /\ Service.calls r = [Service.AuthSignInWithPassword email password]
  | Fulfilled (mkResponse None None) =>
      Service.result r = inl Js.TypeError
      /\ Service.final r = st
      /\ Service.calls r = [Service.AuthSignInWithPassword email password]
  | Rejected e =>
      Service.result r = inl e
      /\ Service.final r = st
      /\ Service.calls r = [Service.AuthSignInWithPassword email password]
  end.
Proof.
  cbv zeta. unfold Login.login, Service.bind, Service.await,
    Service.throw_if_error, Service.deref, Service.throw, Service.ret.
  destruct (Service.auth_sign_in_with_password env email password)
    as [[[d|] [e|]]|e];
    cbn [Service.result Service.final Service.calls data error app]; done.
Qed.

(** X16.  When the sign-in succeeds, [login] is the sign-in followed by a
    [checkSession] on the store that holds the session and the user of the
    sign-in: it never throws, it sends the sign-in and then what
    [checkSession] sends, and it leaves the store as that [checkSession]
    leaves it — initialized. *)
Theorem login_success email password env st d :
  Service.auth_sign_in_with_password env email password
  = Fulfilled (mkResponse (Some d) None) ->
  let signed :=
    {| isInitialized := isInitialized st;
       session := sign_in_session d;
       user := sign_in_user d;
       account := account st |} in
  let check := checkSession (Service.remote env) signed in
  let r := Login.login email password env st in
  Service.result r = inr tt
  /\ Service.final r = Async.final check
  /\ Service.calls r
     = Service.AuthSignInWithPassword email password
       :: map Service.Store (Async.calls check)
  /\ isInitialized (Service.final r) = true.
Proof.
  intros Hin. cbv zeta.
  pose proof (checkSession_returns (Service.remote env)
                {| isInitialized := isInitialized st;
                   session := sign_in_session d;
                   user := sign_in_user d;
                   account := account st |}) as Hcheck.
  cbv zeta in Hcheck. destruct Hcheck as [Hres Hinit].
  unfold Login.login, Service.bind, Service.await, Service.throw_if_error,
    Service.deref, Service.set, Service.lift, Service.ret.
  rewrite Hin. cbn [Service.result Service.final Service.calls data error app].
  rewrite Hres, Hinit. done.
Qed.

Lemma login_success_witness :
  let env := Examples.with_remote Examples.remote_signed_in Examples.env_ok in
  let r := Login.login "rx@example.com" "secret" env init in
  Service.result r = inr tt
  /\ Service.final r
     = Async.final
         (checkSession Examples.remote_signed_in
            {| isInitialized := false;
               session := Some {| Auth.user := Some Scenario.owner |};
               user := Some Scenario.owner;
               account := None |})
  /\ Service.calls r
     = Service.AuthSignInWithPassword "rx@example.com" "secret"
       :: map Service.Store
            (Async.calls
               (checkSession Examples.remote_signed_in
                  {| isInitialized := false;
                     session := Some {| Auth.user := Some Scenario.owner |};
                     user := Some Scenario.owner;
                     account := None |}))
  /\ isInitialized (Service.final r) = true.
Proof.
  exact (login_success "rx@example.com" "secret"
           (Examples.with_remote Examples.remote_signed_in Examples.env_ok) init
           {| sign_in_session := Some {| Auth.user := Some Scenario.owner |};
              sign_in_user := Some Scenario.owner |}
           eq_refl).
Defined.

(** The login of the witness ends signed in, after three requests. *)
Example login_example :
  let env := Examples.with_remote Examples.remote_signed_in Examples.env_ok in
  let r := Login.login "rx@example.com" "secret" env init in
  Service.final r = Scenario.signed_in
  /\ Service.calls r
     = [Service.AuthSignInWithPassword "rx@example.com" "secret";
        Service.Store AuthGetSession;
        Service.Store (AccountsSelect (Js.Str "u1"))].
Proof. vm_compute. done. Qed.

End MoreLogin.

(** ** More on the profile directory *)

Section MoreProfiles.

Import ProfileDirectory.

Implicit Types (w : Browser) (env : Service.Env) (p : MemberProfile.t).

(** X17.  [loadProfiles] sends the one select for the account.  When it
    fulfils without error, the profile set is replaced by the returned rows,
    mapped one by one in the order returned (an absent list counts as
    empty), and the active profile and the session storage are untouched;
    otherwise the call throws what the select gave and nothing changes. *)
Theorem loadProfiles_replaces accountId env w :
  let r := loadProfiles accountId env w in
  Service.calls r = [Service.MemberProfilesSelect accountId]
  /\ match Service.member_profiles_select env accountId with
     | Fulfilled (mkResponse rows None) =>
         Service.result r = inr tt
         /\ ProfileStore.profiles (store (Service.final r))
            = map mapRowToProfile (default [] rows)
         /\ ProfileStore.currentProfile (store (Service.final r))
            = ProfileStore.currentProfile (store w)
         /\ sessionStorage (Service.final r) = sessionStorage w
     | Fulfilled (mkResponse _ (Some e)) =>
         Service.result r = inl (Js.RemoteError e) /\ Service.final r = w
     | Rejected e => Service.result r = inl e /\ Service.final r = w
     end.
Proof.
  destruct w as [[c ps] ss]. run_service.
  settle (Service.member_profiles_select env accountId) as [[rows [e|]]|e]; done.
Qed.

(** X18.  [setCurrentProfile(null)] never throws and sends nothing; it
    clears the active profile in memory and removes the saved selection
    from the session storage (which it leaves alone when the storage
    refuses access), so that reading the saved profile back, and building
    the store anew on a reload, both give no profile. *)
Theorem setCurrentProfile_null_clears env w :
  let r := setCurrentProfile None env w in
  Service.result r = inr tt
  /\ Service.calls r = []
  /\ ProfileStore.currentProfile (store (Service.final r)) = None
  /\ ProfileStore.profiles (store (Service.final r)) = ProfileStore.profiles (store w)
  /\ sessionStorage (Service.final r)
     = (if Service.storage_denied env then sessionStorage w
        else delete KEY (sessionStorage w))
  /\ Service.result (loadSavedProfile env (Service.final r)) = inr None
  /\ ProfileStore.currentProfile
       (store (create env (sessionStorage (Service.final r)))) = None.
Proof.
  destruct w as [[c ps] ss]. run_service.
  settle (Service.storage_denied env) as [|]; [done|].
  rewrite lookup_delete_eq. done.
Qed.

(** X19.  [setCurrentProfile(p)] never throws and sends nothing; the active
    profile in memory is [p] whether or not the storage could be written.
    The session storage gets the serialised profile under the one key when
    it accepts the write, and is left as it was when it refuses access or
    has no room; no other key is ever touched. *)
Theorem setCurrentProfile_persists p env w :
  let r := setCurrentProfile (Some p) env w in
  Service.result r = inr tt
  /\ Service.calls r = []
  /\ ProfileStore.currentProfile (store (Service.final r)) = Some p
  /\ ProfileStore.profiles (store (Service.final r)) = ProfileStore.profiles (store w)
  /\ sessionStorage (Service.final r)
     = (if Service.storage_denied env || Service.quota_exceeded env
        then sessionStorage w
        else <[KEY := Service.JSON_stringify env p]> (sessionStorage w))
  /\ (forall k, k <> KEY ->
        sessionStorage (Service.final r) !! k = sessionStorage w !! k).
Proof.
  destruct w as [[c ps] ss]. run_service.
  settle (Service.storage_denied env) as [|]; [done|].
  settle (Service.quota_exceeded env) as [|]; [done|].
  repeat split. intros k Hk. by rewrite lookup_insert_ne.
Qed.

(** X20.  A selection survives a reload: when the storage accepts the
    write and the codec reads back what it wrote, the store built anew
    from the storage [setCurrentProfile(p)] left has [p] as its active
    profile, and an empty profile set. *)
Theorem reload_restores_selection p env w :
  Service.storage_denied env = false ->
  Service.quota_exceeded env = false ->
  Js.truthy_string (Service.JSON_stringify env p) = true ->
  Service.JSON_parse env (Service.JSON_stringify env p) = Some (Some p) ->
  let r := setCurrentProfile (Some p) env w in
  let reloaded := create env (sessionStorage (Service.final r)) in
  ProfileStore.currentProfile (store reloaded) = Some p
  /\ ProfileStore.profiles (store reloaded) = []
  /\ sessionStorage reloaded = sessionStorage (Service.final r).
Proof.
  destruct w as [[c ps] ss]. run_service. intros Hd Hq Ht Hparse.
  rewrite Hd, Hq. run_service. rewrite lookup_insert_eq, Ht. run_service.
  by rewrite Hparse.
Qed.

Lemma reload_restores_selection_witness :
  let r := setCurrentProfile (Some Examples.alice) Examples.env_ok Examples.fresh_tab in
  let reloaded := create Examples.env_ok (sessionStorage (Service.final r)) in
  ProfileStore.currentProfile (store reloaded) = Some Examples.alice
  /\ ProfileStore.profiles (store reloaded) = []
  /\ sessionStorage reloaded = sessionStorage (Service.final r).
Proof.
  apply (reload_restores_selection Examples.alice Examples.env_ok Examples.fresh_tab);
    reflexivity.
Defined.

(** X21.  Building the store on page load never fails and never writes to
    the storage: the profile set starts empty, and the active profile is
    the parsed saved value when the storage can be read, holds a non-empty
    text under the key and that text parses — and no profile in every other
    case (storage refused, key missing, empty text, text that does not
    parse). *)
Theorem create_tolerates_bad_storage env storage :
  let w := create env storage in
  ProfileStore.profiles (store w) = []
  /\ sessionStorage w = storage
  /\ ProfileStore.currentProfile (store w)
     = (if Service.storage_denied env then None
        else match storage !! KEY with
             | Some raw =>
                 if Js.truthy_string raw
                 then match Service.JSON_parse env raw with
                      | Some parsed => parsed
                      | None => None
                      end
                 else None
             | None => None
             end).
Proof.
  run_service.
  settle (Service.storage_denied env) as [|]; [done|].
  settle (storage !! KEY) as [raw|]; [|done].
  settle (Js.truthy_string raw) as [|]; [|done].
  settle (Service.JSON_parse env raw) as [parsed|]; done.
Qed.

(** X22.  [refreshCurrentProfile] never changes the profile set.  With no
    active profile it sends nothing and changes nothing.  With one it sends
    the select for that profile's id; when the row comes back without
    error the active profile becomes the mapped row and is saved to the
    session storage (when the storage accepts the write), and otherwise the
    call throws and nothing changes. *)
Theorem refreshCurrentProfile_cases env w :
  let r := refreshCurrentProfile env w in
  ProfileStore.profiles (store (Service.final r)) = ProfileStore.profiles (store w)
  /\ match ProfileStore.currentProfile (store w) with
     | None =>
         Service.result r = inr tt /\ Service.calls r = [] /\ Service.final r = w
     | Some p =>
         Service.calls r = [Service.MemberProfilesSelectOne (MemberProfile.id p)]
         /\ match Service.member_profiles_select_one env (MemberProfile.id p) with
            | Fulfilled (mkResponse (Some row) None) =>
                Service.result r = inr tt
                /\ ProfileStore.currentProfile (store (Service.final r))
                   = Some (mapRowToProfile row)
                /\ sessionStorage (Service.final r)
                   = (if Service.storage_denied env || Service.quota_exceeded env
                      then sessionStorage w
                      else <[KEY := Service.JSON_stringify env (mapRowToProfile row)]>
                             (sessionStorage w))
            | Fulfilled (mkResponse _ (Some e)) =>
                Service.result r = inl (Js.RemoteError e) /\ Service.final r = w
            | Fulfilled (mkResponse None None) =>
                Service.result r = inl Js.TypeError /\ Service.final r = w
            | Rejected e => Service.result r = inl e /\ Service.final r = w
            end
     end.
Proof.
  destruct w as [[[p|] ps] ss]; run_service; [|done].
  settle (Service.member_profiles_select_one env (MemberProfile.id p))
    as [[[row|] [e|]]|e]; try done.
  settle (Service.storage_denied env) as [|]; [done|].
  settle (Service.quota_exceeded env) as [|]; done.
Qed.

(** X23.  [mapRowToProfile] gives a profile for every row: [isActive] is
    always a boolean, true exactly when the row's [is_active] is truthy,
    and [email], [phone] and [updatedAt] are null when the column is null
    or absent and the row's value otherwise, so never undefined. *)
Theorem mapRowToProfile_defaults (row : ProfileRow.t) :
  let p := mapRowToProfile row in
  let or_null (v : Js.value) := if Js.nullish v then Js.Null else v in
  MemberProfile.isActive p = Js.Bool (Js.truthy (ProfileRow.is_active row))
  /\ MemberProfile.email p = or_null (ProfileRow.email row)
  /\ MemberProfile.phone p = or_null (ProfileRow.phone row)
  /\ MemberProfile.updatedAt p = or_null (ProfileRow.updated_at row)
  /\ MemberProfile.email p <> Js.Undefined
  /\ MemberProfile.phone p <> Js.Undefined
  /\ MemberProfile.updatedAt p <> Js.Undefined
  /\ MemberProfile.id p = ProfileRow.id row
  /\ MemberProfile.accountId p = ProfileRow.account_id row
  /\ MemberProfile.fullName p = ProfileRow.full_name row
  /\ MemberProfile.role p = ProfileRow.role row
  /\ MemberProfile.createdAt p = ProfileRow.created_at row.
Proof.
  destruct row as [i a n r e ph ia ca ua]. cbn. unfold Js.coalesce.
  repeat split; try done.
  - by destruct e.
  - by destruct ph.
  - by destruct ua.
Qed.

End MoreProfiles.

(** ** More on the profile dashboard service *)

Section MoreDashboard.

Import DashboardService.

Implicit Types (env : Service.Env) (row : TrainingRow.t).

(** X24.  The service's [addBookmark] asks the catalog for the path first
    and inserts only when a row came back without error, with that row's
    identifier.  It throws a failed lookup without inserting, and — unlike
    the store's toggle — it throws the error an insert returned: it returns
    normally only when the insert fulfilled without error. *)
Theorem service_addBookmark_cases profileId resource_path env :
  let r := addBookmark profileId resource_path env tt in
  let lookup := Service.CatalogSelectIdByPath resource_path in
  match Service.catalog_select_id_by_path env resource_path with
  | Fulfilled (mkResponse (Some file) None) =>
      Service.calls r
      = [lookup; Service.Store (BookmarksInsert profileId "file" (catalog_id file))]
      /\ Service.result r
         = match bookmarks_insert (Service.remote env) profileId "file" (catalog_id file) with
           | Fulfilled (mkResponse _ None) => inr tt
           | Fulfilled (mkResponse _ (Some e)) => inl (Js.RemoteError e)
           | Rejected e => inl e
           end
  | Fulfilled (mkResponse _ (Some e)) =>
      Service.result r = inl (Js.RemoteError e) /\ Service.calls r = [lookup]
  | Fulfilled (mkResponse None None) =>
      Service.result r = inl Js.TypeError /\ Service.calls r = [lookup]
  | Rejected e => Service.result r = inl e /\ Service.calls r = [lookup]
  end.
Proof.
  run_service.
  settle (Service.catalog_select_id_by_path env resource_path)
    as [[[[file]|] [e|]]|e]; try done.
  settle (bookmarks_insert (Service.remote env) profileId "file" file)
    as [[[] [e|]]|e]; done.
Qed.

(** X25.  The service's [removeBookmark] likewise: the delete goes out only
    after a lookup that returned a row without error, keyed by that row's
    identifier, and an error the delete returned is thrown. *)
Theorem service_removeBookmark_cases profileId resourcePath env :
  let r := removeBookmark profileId resourcePath env tt in
  let lookup := Service.CatalogSelectIdByPath resourcePath in
  match Service.catalog_select_id_by_path env resourcePath with
  | Fulfilled (mkResponse (Some file) None) =>
      Service.calls r
      = [lookup; Service.Store (BookmarksDelete profileId (catalog_id file))]
      /\ Service.result r
         = match bookmarks_delete (Service.remote env) profileId (catalog_id file) with
           | Fulfilled (mkResponse _ None) => inr tt
           | Fulfilled (mkResponse _ (Some e)) => inl (Js.RemoteError e)
           | Rejected e => inl e
           end
  | Fulfilled (mkResponse _ (Some e)) =>
      Service.result r = inl (Js.RemoteError e) /\ Service.calls r = [lookup]
  | Fulfilled (mkResponse None None) =>
      Service.result r = inl Js.TypeError /\ Service.calls r = [lookup]
  | Rejected e => Service.result r = inl e /\ Service.calls r = [lookup]
  end.
Proof.
  run_service.
  settle (Service.catalog_select_id_by_path env resourcePath)
    as [[[[file]|] [e|]]|e]; try done.
  settle (bookmarks_delete (Service.remote env) profileId file)
    as [[[] [e|]]|e]; done.
Qed.

(** X26.  The service's [isBookmarked] answers false, without asking for
    bookmarks, when the catalog lookup returned an error (the file is not in
    the catalog).  Otherwise it asks for the bookmark of the profile and the
    catalog identifier and answers true exactly when a row came back; an
    error of that second query is thrown, not turned into false. *)
Theorem service_isBookmarked_cases profileId resourcePath env :
  let r := isBookmarked profileId resourcePath env tt in
  let lookup := Service.CatalogSelectIdByPath resourcePath in
  match Service.catalog_select_id_by_path env resourcePath with
  | Fulfilled (mkResponse _ (Some _)) =>
      Service.result r = inr false /\ Service.calls r = [lookup]
  | Fulfilled (mkResponse (Some file) None) =>
      Service.calls r
      = [lookup; Service.BookmarksSelectId profileId (catalog_id file)]
      /\ Service.result r
         = match Service.bookmarks_select_id env profileId (catalog_id file) with
           | Fulfilled (mkResponse (Some (_ :: _)) None) => inr true
           | Fulfilled (mkResponse _ None) => inr false
           | Fulfilled (mkResponse _ (Some e)) => inl (Js.RemoteError e)
           | Rejected e => inl e
           end
  | Fulfilled (mkResponse None None) =>
      Service.result r = inl Js.TypeError /\ Service.calls r = [lookup]
  | Rejected e => Service.result r = inl e /\ Service.calls r = [lookup]
  end.
Proof.
  run_service.
  settle (Service.catalog_select_id_by_path env resourcePath)
    as [[[[file]|] [e|]]|e]; try done.
  settle (Service.bookmarks_select_id env profileId file)
    as [[[[|? ?]|] [e|]]|e]; done.
Qed.

(** X27.  [getModuleProgress] sends the one select.  "No rows found" (error
    code PGRST116) is the answer null, not a failure; every other error is
    thrown; a row gives its progress, under the module name
    "Unknown Module". *)
Theorem getModuleProgress_cases profileId trainingModuleId env :
  let r := getModuleProgress profileId trainingModuleId env tt in
  Service.calls r = [Service.TrainingProgressSelectOne profileId trainingModuleId]
  /\ Service.result r
     = match Service.training_progress_select_one env profileId trainingModuleId with
       | Fulfilled (mkResponse _ (Some code)) =>
           if String.eqb code "PGRST116" then inr None
           else inl (Js.RemoteError code)
       | Fulfilled (mkResponse (Some row) None) =>
           inr (Some (progress_of_row (Js.Str "Unknown Module") row))
       | Fulfilled (mkResponse None None) => inl Js.TypeError
       | Rejected e => inl e
       end.
Proof.
  run_service.
  settle (Service.training_progress_select_one env profileId trainingModuleId)
    as [[[row|] [code|]]|e]; try done.
  - by destruct (String.eqb code "PGRST116").
  - by destruct (String.eqb code "PGRST116").
Qed.

(** [a || b] is [a] when [a] is truthy and [b] otherwise. *)
Lemma js_or_truthy (a b : Js.value) :
  Js.truthy b = true -> Js.truthy (js_or a b) = true.
Proof. unfold js_or. by destruct (Js.truthy a) eqn:Ha. Qed.

(** X28.  The status read from a progress row depends on its two flags
    only: it is [completed] exactly when [is_completed] is truthy —
    whatever the percentage —, [in_progress] exactly when it is not but
    [started_at] is truthy, and [not_started] otherwise.  The percentage
    read is the row's when that is truthy and 0 otherwise, so it is never
    null, undefined or NaN. *)
Theorem progress_of_row_status name row :
  let p := progress_of_row name row in
  (completionStatus p = completed <-> Js.truthy (TrainingRow.is_completed row) = true)
  /\ (completionStatus p = in_progress
      <-> Js.truthy (TrainingRow.is_completed row) = false
          /\ Js.truthy (TrainingRow.started_at row) = true)
  /\ (completionStatus p = not_started
      <-> Js.truthy (TrainingRow.is_completed row) = false
          /\ Js.truthy (TrainingRow.started_at row) = false)
  /\ completionPercentage p
     = (if Js.truthy (TrainingRow.completion_percentage row)
        then TrainingRow.completion_percentage row
        else Js.Num (Js.of_Z 0))
  /\ Js.nullish (completionPercentage p) = false
  /\ completionPercentage p <> Js.Num Js.NaN.
Proof.
  cbn. unfold completion_status, js_or.
  destruct (Js.truthy (TrainingRow.is_completed row)),
    (Js.truthy (TrainingRow.started_at row));
    (repeat split; try done; try (intros [? ?]; done)).
  all: destruct (TrainingRow.completion_percentage row) as [| |[|]|[| | |q]|s];
    cbn; try done.
  all: by repeat case_match.
Qed.

(** X29.  When its select fulfils without error, [getTrainingProgress]
    sends that one select and returns one entry per returned row, in the
    order returned.  The module name of an entry is the joined name of its
    row when that name is there and truthy, and "Unknown Module" when the
    join or the name is missing (or the name is falsy) — so it is always
    truthy; the rest of the entry is the status and percentage read from
    the row. *)
Theorem getTrainingProgress_entries profileId env rows :
  Service.training_progress_select_joined env profileId
  = Fulfilled (mkResponse rows None) ->
  let r := getTrainingProgress profileId env tt in
  exists entries,
    Service.result r = inr entries
    /\ Service.calls r = [Service.TrainingProgressSelectJoined profileId]
    /\ length entries = length (default [] rows)
    /\ Forall2
         (fun row p =>
            p = progress_of_row (moduleName p) row
            /\ moduleName p
               = match TrainingRow.training_modules_name row with
                 | Some name =>
                     if Js.truthy name then name else Js.Str "Unknown Module"
                 | None => Js.Str "Unknown Module"
                 end
            /\ Js.truthy (moduleName p) = true)
         (default [] rows) entries.
Proof.
  intros Hsel. cbv zeta. unfold getTrainingProgress.
  unfold Service.bind, Service.await, Service.throw_if_error, Service.ret.
  rewrite Hsel. cbn [Service.result Service.final Service.calls data error app].
  eexists. split; [reflexivity|]. split; [reflexivity|].
  split; [by rewrite length_map|].
  induction (default [] rows) as [|row rest IH]; cbn [map]; constructor; [|done].
  split; [done|]. cbn [moduleName progress_of_row]. split.
  - unfold joined_module_name, js_or.
    by destruct (TrainingRow.training_modules_name row) as [name|].
  - by apply js_or_truthy.
Qed.

Lemma getTrainingProgress_entries_witness :
  let r := getTrainingProgress "p1" Examples.env_training tt in
  exists entries,
    Service.result r = inr entries
    /\ Service.calls r = [Service.TrainingProgressSelectJoined "p1"]
    /\ length entries = 2
    /\ Forall2
         (fun row p =>
            p = progress_of_row (moduleName p) row
            /\ moduleName p
               = match TrainingRow.training_modules_name row with
                 | Some name =>
                     if Js.truthy name then name else Js.Str "Unknown Module"
                 | None => Js.Str "Unknown Module"
                 end
            /\ Js.truthy (moduleName p) = true)
         Examples.training_rows entries.
Proof.
  exact (getTrainingProgress_entries "p1" Examples.env_training
           (Some Examples.training_rows) eq_refl).
Defined.

(** The two rows of the witness, read: the joined name and 50 percent in
    progress; "Unknown Module", completed, 0 percent. *)
Example getTrainingProgress_example :
  Service.result (getTrainingProgress "p1" Examples.env_training tt)
  = inr [ {| id := Js.Str "t1";
             trainingModuleId := Js.Str "training_mtm";
             moduleName := Js.Str "MTM Basics";
             startTime := Js.Str "2025-01-01T00:00:00.000Z";
             completedTime := Js.Null;
             completionPercentage := Js.Num (Js.of_Z 50);
             completionStatus := in_progress |};
          {| id := Js.Str "t2";
             trainingModuleId := Js.Str "training_hba1c";
             moduleName := Js.Str "Unknown Module";
             startTime := Js.Str "2025-01-02T00:00:00.000Z";
             completedTime := Js.Str "2025-01-03T00:00:00.000Z";
             completionPercentage := Js.Num (Js.of_Z 0);
             completionStatus := completed |} ].
Proof. vm_compute. done. Qed.

(** X30.  [completeTrainingModule] sends one update, and it always carries
    the percentage 100, the completed flag, and the current time as
    completion timestamp; it throws exactly what that update gives it to
    throw. *)
Theorem completeTrainingModule_payload profileId trainingModuleId (env : Remote) :
  let payload :=
    {| TrainingPayload.completion_percentage := Js.of_Z 100;
       TrainingPayload.is_completed := true;
       TrainingPayload.completed_at := Some (now env) |} in
  let r := TrainingProgress.completeTrainingModule profileId trainingModuleId env tt in
  Async.calls r = [TrainingProgressUpdate profileId trainingModuleId payload]
  /\ Async.result r
     = match training_progress_update env profileId trainingModuleId payload with
       | Fulfilled (mkResponse _ None) => inr tt
       | Fulfilled (mkResponse _ (Some e)) => inl (Js.RemoteError e)
       | Rejected e => inl e
       end.
Proof.
  cbv zeta. unfold TrainingProgress.completeTrainingModule.
  pose proof (updateTrainingProgress_run profileId trainingModuleId (Js.of_Z 100)
                true env) as Hrun.
  cbv zeta in Hrun.
  change (TrainingProgress.clamp (Js.of_Z 100)) with (Js.of_Z 100) in Hrun.
  exact Hrun.
Qed.

End MoreDashboard.
